(** * LedgerDatabaseImpl: the transactional command executor

    A shallow embedding of
    [vendor/bat-native-ledger/src/bat/ledger/internal/ledger_database_impl.cc]
    and the properties of its batch execution: bootstrap of the meta table,
    rollback on the first failing command, the stand-alone close, the deferred
    vacuum, and the conversion of result rows into records.

    The C++ object is mutated in place; here every member function takes the
    object and the response and gives them back, together with the list of
    calls it made on the sql layer (in program order). *)

From Stdlib Require Import List ZArith String Bool Lia.
Import ListNotations.
Local Open Scope string_scope.
Local Open Scope list_scope.
Local Open Scope Z_scope.

Set Implicit Arguments.

(** ** The mojom data model used by the executor *)

Module mojom.

(** A C++ [double], carried as its IEEE-754 binary64 bit pattern: the
    executor only moves such values around. *)
Definition double := Z.

(** [mojom::DBValue], a union with one active tag. *)
Inductive DBValue :=
| STRING_VALUE (s : string)
| INT_VALUE (i : Z)
| INT64_VALUE (i : Z)
| DOUBLE_VALUE (d : double)
| BOOL_VALUE (b : bool)
| NULL_VALUE (placeholder : Z).

Record DBCommandBinding := {
  index : Z;
  value : DBValue
}.

(** [mojom::DBCommand::RecordBindingType]. *)
Inductive RecordBindingType :=
| STRING_TYPE | INT_TYPE | INT64_TYPE | DOUBLE_TYPE | BOOL_TYPE.

(** [mojom::DBCommand::Type]. *)
Inductive Type_ :=
| INITIALIZE | READ | EXECUTE | RUN | MIGRATE | VACUUM | CLOSE.

Record DBCommand := {
  type : Type_;
  command : string;
  bindings : list DBCommandBinding;
  record_bindings : list RecordBindingType
}.

Record DBTransaction := {
  version : Z;
  compatible_version : Z;
  commands : list DBCommand
}.

Record DBRecord := { fields : list DBValue }.

(** [mojom::DBCommandResult], a union of a record list and a scalar. *)
Inductive DBCommandResult :=
| records (rs : list DBRecord)
| value_ (v : DBValue).

(** [mojom::DBCommandResponse::Status]. *)
Inductive Status :=
| RESPONSE_OK
| INITIALIZATION_ERROR
| TRANSACTION_ERROR
| COMMAND_ERROR
| RESPONSE_ERROR.

Record DBCommandResponse := {
  status : Status;
  result : option DBCommandResult
}.

(** [mojom::DBCommandResponse::New()]: the enum field is zero-initialised,
    which is [RESPONSE_OK], and the nullable result is empty. *)
Definition New : DBCommandResponse :=
  {| status := RESPONSE_OK; result := None |}.

Definition set_status (st : Status) (r : DBCommandResponse) : DBCommandResponse :=
  {| status := st; result := result r |}.

Definition set_result (res : DBCommandResult) (r : DBCommandResponse)
  : DBCommandResponse :=
  {| status := status r; result := Some res |}.

Definition Type_eqb (a b : Type_) : bool :=
  match a, b with
  | INITIALIZE, INITIALIZE | READ, READ | EXECUTE, EXECUTE | RUN, RUN
  | MIGRATE, MIGRATE | VACUUM, VACUUM | CLOSE, CLOSE => true
  | _, _ => false
  end.

Definition Status_eqb (a b : Status) : bool :=
  match a, b with
  | RESPONSE_OK, RESPONSE_OK
  | INITIALIZATION_ERROR, INITIALIZATION_ERROR
  | TRANSACTION_ERROR, TRANSACTION_ERROR
  | COMMAND_ERROR, COMMAND_ERROR
  | RESPONSE_ERROR, RESPONSE_ERROR => true
  | _, _ => false
  end.

End mojom.

Import mojom.

(** ** The sql layer the executor drives

    [sql::Database], [sql::Statement], [sql::Transaction] and [sql::MetaTable]
    belong to the embedding browser, not to this repository.  What a statement
    does to the tables is left to an arbitrary engine; the bookkeeping the
    executor relies on (open flag, snapshot and rollback, the meta table) is
    written out. *)

Module sql.

(** [sql::ColumnType]. *)
Inductive ColumnType := kInteger | kFloat | kText | kBlob | kNull.

(** One cell of a result row, as the engine holds it. *)
Inductive Column :=
| CellInteger (i : Z)
| CellFloat (d : double)
| CellText (s : string)
| CellBlob (bytes : string)
| CellNull.

(** What one call of [Statement::Step] finds. *)
Inductive StepOutcome :=
| StepRow (row : list Column)
| StepDone
| StepError.

(** The calls [Statement::Bind*] recorded on a prepared statement. *)
Inductive Bound :=
| BindString (s : string)
| BindInt (i : Z)
| BindInt64 (i : Z)
| BindDouble (d : double)
| BindBool (b : bool)
| BindNull.

(** A prepared statement: its text, the parameters bound so far (in call
    order) and the row it currently stands on. *)
Record Statement := {
  stmt_sql : string;
  stmt_bound : list (Z * Bound);
  stmt_row : list Column
}.

(** The two rows of the reserved meta table. *)
Record MetaRows := {
  meta_version : Z;
  meta_compatible_version : Z
}.

Section Store.
Variable Tables : Type.

(** Content of the database file: the meta table, when it exists, and the
    caller's own tables. *)
Record Store := {
  meta : option MetaRows;
  tables : Tables
}.

(** What a command text did to the transaction its connection is in.  Most
    texts leave it alone; a text can also end it on its own (as [COMMIT] or
    [ROLLBACK] do), or leave the connection in another transaction, one that
    a rollback returns to [d]. *)
Inductive TransactionEffect :=
| keeps
| ends
| begins_at (d : Store).

(** Result of [Database::Execute] or [Statement::Run]: success flag, the
    content afterwards, [GetLastChangeCount], and what became of the
    transaction. *)
Record ExecOutcome := {
  x_ok : bool;
  x_data : Store;
  x_changes : Z;
  x_transaction : TransactionEffect
}.

(** Result of stepping a statement to its end: what each [Step] finds, the
    content afterwards, and what became of the transaction. *)
Record QueryOutcome := {
  q_steps : list StepOutcome;
  q_data : Store;
  q_transaction : TransactionEffect
}.

(** The engine behind the connection. *)
Class Engine := {
  db_execute : string -> Store -> ExecOutcome;
  stmt_run : Statement -> Store -> ExecOutcome;
  stmt_query : Statement -> Store -> QueryOutcome;
  (* conversions applied when a cell is read with an accessor of another type *)
  coerce_string : Column -> string;
  coerce_int64 : Column -> Z;
  coerce_double : Column -> double
}.
End Store.

Arguments meta {Tables} _.
Arguments tables {Tables} _.
Arguments keeps {Tables}.
Arguments ends {Tables}.

(** Outcome of the fallible calls whose result does not depend on a command
    text.  Each is made at most once per batch. *)
Record Faults := {
  open_ok : bool;        (* Database::Open *)
  begin_ok : bool;       (* Transaction::Begin *)
  meta_init_ok : bool;   (* MetaTable::Init *)
  commit_ok : bool       (* Transaction::Commit *)
}.

End sql.

Import sql.

(** ** Calls made on the sql layer

    Every member function below returns, next to its result, the calls it made
    in program order.  [Dispatch] marks a command entering the [switch] of
    [RunTransaction]; [Database_Vacuum] is the [db_.Execute("VACUUM")] that
    follows the commit, kept apart from the [db_.Execute] of an [EXECUTE]
    command. *)
Inductive Call :=
| Database_Open (ok : bool)
| Database_Close
| Database_Execute (text : string) (ok : bool)
| Database_Vacuum (ok : bool)
| Statement_Run (text : string) (ok : bool)
| Statement_Steps (text : string)
| Transaction_Begin (ok : bool)
| Transaction_Rollback
| Transaction_Commit (ok : bool)
| MetaTable_DoesTableExist (found : bool)
| MetaTable_Init (ok : bool)
| MetaTable_GetVersionNumber
| MetaTable_SetVersionNumber (v : Z)
| MetaTable_SetCompatibleVersionNumber (v : Z)
| MetaTable_Reset
| Dispatch (c : DBCommand)
| LogError (msg : string).

Definition is_Dispatch (c : Call) : bool :=
  match c with Dispatch _ => true | _ => false end.

Definition is_Database_Vacuum (c : Call) : bool :=
  match c with Database_Vacuum _ => true | _ => false end.

Definition is_Database_Close (c : Call) : bool :=
  match c with Database_Close => true | _ => false end.

Definition is_Transaction_call (c : Call) : bool :=
  match c with
  | Transaction_Begin _ | Transaction_Rollback | Transaction_Commit _ => true
  | _ => false
  end.

(** The calls that hand a command text to the engine. *)
Definition is_engine_call (c : Call) : bool :=
  match c with
  | Database_Execute _ _ | Statement_Run _ _ | Statement_Steps _ => true
  | _ => false
  end.

Definition is_schema_call (c : Call) : bool :=
  match c with
  | MetaTable_DoesTableExist _ | MetaTable_Init _ => true
  | _ => false
  end.

(** The commands that entered the [switch], in order. *)
Fixpoint dispatched (cs : list Call) : list DBCommand :=
  match cs with
  | [] => []
  | Dispatch c :: rest => c :: dispatched rest
  | _ :: rest => dispatched rest
  end.

(** ** Anonymous-namespace helpers *)

(** [int] is 32 bits wide: [sqlite3_column_int] keeps the low 32 bits of the
    stored 64-bit integer, read as two's complement. *)
Definition wrap32 (z : Z) : Z := (z + 2 ^ 31) mod 2 ^ 32 - 2 ^ 31.

Section Executor.
Context {Tables : Type} {engine : Engine Tables}.

(** *** Column accessors of [sql::Statement]

    The accessors of [sql::Statement] are not part of this repository.  A
    cell read with the accessor of its own type gives the stored value; any
    other combination goes through the engine's conversion.  A column past
    the end of the row reads as null. *)

(** Modelled from the spec: [Statement::ColumnCount], the number of columns
    of the row the statement stands on. *)
Definition ColumnCount (statement : Statement) : nat :=
  List.length (stmt_row statement).

(** Modelled from the spec: the cell a column accessor of [sql::Statement]
    looks at. *)
Definition cell (statement : Statement) (column : nat) : Column :=
  nth column (stmt_row statement) CellNull.

(** Modelled from the spec: [Statement::GetColumnType], the runtime type of
    the column. *)
Definition GetColumnType (statement : Statement) (column : nat) : ColumnType :=
  match cell statement column with
  | CellInteger _ => kInteger
  | CellFloat _ => kFloat
  | CellText _ => kText
  | CellBlob _ => kBlob
  | CellNull => kNull
  end.

(** Modelled from the spec: [Statement::ColumnString]. *)
Definition ColumnString (statement : Statement) (column : nat) : string :=
  match cell statement column with
  | CellText s => s
  | c => coerce_string c
  end.

(** Modelled from the spec: [Statement::ColumnInt64]. *)
Definition ColumnInt64 (statement : Statement) (column : nat) : Z :=
  match cell statement column with
  | CellInteger i => i
  | c => coerce_int64 c
  end.

(** Modelled from the spec: [Statement::ColumnInt], the 64-bit value cut
    down to [int]. *)
Definition ColumnInt (statement : Statement) (column : nat) : Z :=
  wrap32 (ColumnInt64 statement column).

(** Modelled from the spec: [Statement::ColumnDouble]. *)
Definition ColumnDouble (statement : Statement) (column : nat) : double :=
  match cell statement column with
  | CellFloat d => d
  | c => coerce_double c
  end.

(** Modelled from the spec: [Statement::ColumnBool], true for a non-zero
    integer. *)
Definition ColumnBool (statement : Statement) (column : nat) : bool :=
  negb (Z.eqb (ColumnInt statement column) 0).

(** Modelled from the spec: [Statement::ColumnBlobAsString], the raw bytes
    taken as a string. *)
Definition ColumnBlobAsString (statement : Statement) (column : nat) : string :=
  match cell statement column with
  | CellBlob bytes => bytes
  | c => coerce_string c
  end.

(** Modelled from the spec: [Statement::Bind*], the parameter is recorded
    on the statement at its positional slot. *)
Definition bind (statement : Statement) (index : Z) (b : Bound) : Statement :=
  {| stmt_sql := stmt_sql statement;
     stmt_bound := stmt_bound statement ++ [(index, b)];
     stmt_row := stmt_row statement |}.

(** [HandleBinding]: a null statement is left alone, otherwise the tag of
    the value selects the bind call. *)
Definition HandleBinding (statement : option Statement)
           (binding : DBCommandBinding) : option Statement :=
  match statement with
  | None => None
  | Some st =>
    Some match value binding with
         | STRING_VALUE s => bind st (index binding) (BindString s)
         | INT_VALUE i => bind st (index binding) (BindInt i)
         | INT64_VALUE i => bind st (index binding) (BindInt64 i)
         | DOUBLE_VALUE d => bind st (index binding) (BindDouble d)
         | BOOL_VALUE b => bind st (index binding) (BindBool b)
         | NULL_VALUE _ => bind st (index binding) BindNull
         end
  end.

(** The explicit branch of [CreateRecord]: one field per declared binding,
    read at consecutive columns starting from [column]. *)
Fixpoint explicit_fields (statement : Statement)
         (bindings : list RecordBindingType) (column : nat) : list DBValue :=
  match bindings with
  | [] => []
  | binding :: rest =>
    let value :=
      match binding with
      | STRING_TYPE => STRING_VALUE (ColumnString statement column)
      | INT_TYPE => INT_VALUE (ColumnInt statement column)
      | INT64_TYPE => INT64_VALUE (ColumnInt64 statement column)
      | DOUBLE_TYPE => DOUBLE_VALUE (ColumnDouble statement column)
      | BOOL_TYPE => BOOL_VALUE (ColumnBool statement column)
      end in
    value :: explicit_fields statement rest (S column)
  end.

(** The body of the inferred loop of [CreateRecord] for one column. *)
Definition inferred_field (statement : Statement) (column : nat) : DBValue :=
  match GetColumnType statement column with
  | kInteger => INT64_VALUE (ColumnInt64 statement column)
  | kFloat => DOUBLE_VALUE (ColumnDouble statement column)
  | kText => STRING_VALUE (ColumnString statement column)
  | kBlob => STRING_VALUE (ColumnBlobAsString statement column)
  | kNull => NULL_VALUE 0
  end.

(** [CreateRecord]. *)
Definition CreateRecord (statement : option Statement)
           (bindings : list RecordBindingType) : DBRecord :=
  match statement with
  | None => {| fields := [] |}
  | Some st =>
    if (0 <? List.length bindings)%nat
    then {| fields := explicit_fields st bindings 0 |}
    else {| fields := List.map (inferred_field st) (seq 0 (ColumnCount st)) |}
  end.

(** *** The object *)

(** [db_] is split into its open flag and the content it gives access to
    (the file at [db_path_], which outlives the connection); [meta_table_]
    is reduced to whether it currently holds the connection. *)
Record LedgerDatabaseImpl := {
  db_is_open : bool;
  db_data : Store Tables;
  meta_table_db : bool;
  initialized_ : bool;
  memory_pressure_listener_ : bool
}.

Definition with_data (d : Store Tables) (self : LedgerDatabaseImpl)
  : LedgerDatabaseImpl :=
  {| db_is_open := db_is_open self;
     db_data := d;
     meta_table_db := meta_table_db self;
     initialized_ := initialized_ self;
     memory_pressure_listener_ := memory_pressure_listener_ self |}.

(** *** [sql::MetaTable] *)

(** Modelled from the spec: [sql::MetaTable::DoesTableExist], whether the
    reserved meta table is there. *)
Definition DoesTableExist (d : Store Tables) : bool :=
  match meta d with Some _ => true | None => false end.

(** Modelled from the spec: [sql::MetaTable::Init] is not part of this
    repository.  When the meta table does not exist yet it is created and
    seeded with the supplied version and compatible version; an existing
    table is left as it is. *)
Definition seed_meta (version compatible_version : Z) (d : Store Tables)
  : Store Tables :=
  match meta d with
  | Some _ => d
  | None =>
    {| meta := Some {| meta_version := version;
                       meta_compatible_version := compatible_version |};
       tables := tables d |}
  end.

(** Modelled from the spec: [meta_table_.Init(&db_, version,
    compatible_version)].  The meta table takes hold of the connection; a
    failed call leaves the content alone. *)
Definition MetaTable_Init_ (F : Faults) (version compatible_version : Z)
           (self : LedgerDatabaseImpl) : bool * LedgerDatabaseImpl :=
  let d := if meta_init_ok F
           then seed_meta version compatible_version (db_data self)
           else db_data self in
  (meta_init_ok F,
   {| db_is_open := db_is_open self;
      db_data := d;
      meta_table_db := true;
      initialized_ := initialized_ self;
      memory_pressure_listener_ := memory_pressure_listener_ self |}).

(** Modelled from the spec: [sql::MetaTable::GetVersionNumber] is not part
    of this repository.  It reads back the stored version, and gives 0 when
    there is none to read. *)
Definition GetVersionNumber (d : Store Tables) : Z :=
  match meta d with
  | Some m => meta_version m
  | None => 0
  end.

(** Modelled from the spec: [sql::MetaTable::SetVersionNumber] and
    [SetCompatibleVersionNumber] are not part of this repository.  They
    overwrite the stored number; without a meta table there is no row to
    overwrite. *)
Definition SetVersionNumber (v : Z) (d : Store Tables) : Store Tables :=
  match meta d with
  | Some m =>
    {| meta := Some {| meta_version := v;
                       meta_compatible_version := meta_compatible_version m |};
       tables := tables d |}
  | None => d
  end.

(** Modelled from the spec: [sql::MetaTable::SetCompatibleVersionNumber],
    as [SetVersionNumber] for the other row. *)
Definition SetCompatibleVersionNumber (v : Z) (d : Store Tables) : Store Tables :=
  match meta d with
  | Some m =>
    {| meta := Some {| meta_version := meta_version m;
                       meta_compatible_version := v |};
       tables := tables d |}
  | None => d
  end.

(** *** [sql::Transaction] *)

(** Modelled from the spec: [sql::Transaction] is not part of this
    repository.  An atomic transaction is known by the content it began at,
    and by the content a rollback on its connection returns to right now:
    the same content as long as the commands leave the transaction alone,
    none once a command text has ended the transaction on its own. *)
Record Transaction := {
  begun_at : Store Tables;
  undo_to : option (Store Tables)
}.

(** A transaction begun on the content [self] sees. *)
Definition begun (self : LedgerDatabaseImpl) : Transaction :=
  {| begun_at := db_data self; undo_to := Some (db_data self) |}.

(** Modelled from the spec: [Transaction::Begin] remembers the content, or
    fails. *)
Definition Begin (F : Faults) (self : LedgerDatabaseImpl) : option Transaction :=
  if begin_ok F then Some (begun self) else None.

(** Modelled from the spec: [Transaction::Rollback] rolls the connection
    back to where its transaction began; when a command has ended the
    transaction already there is nothing left to undo. *)
Definition Rollback (committer : Transaction) (self : LedgerDatabaseImpl)
  : LedgerDatabaseImpl :=
  match undo_to committer with
  | Some d => with_data d self
  | None => self
  end.

(** Modelled from the spec: [Transaction::Commit] keeps the content; a
    commit that fails leaves the batch fully rolled back. *)
Definition Commit (F : Faults) (committer : Transaction)
           (self : LedgerDatabaseImpl) : bool * LedgerDatabaseImpl :=
  if commit_ok F then (true, self)
  else (false, with_data (begun_at committer) self).

(** *** Member functions *)

Definition Result (A : Type) : Type :=
  (Status * LedgerDatabaseImpl * A * list Call)%type.

(** [LedgerDatabaseImpl::Initialize]. *)
Definition Initialize (F : Faults) (version compatible_version : Z)
           (command_response : option DBCommandResponse)
           (self : LedgerDatabaseImpl) : Result (option DBCommandResponse) :=
  match command_response with
  | None => (RESPONSE_ERROR, self, None, [])
  | Some response =>
    if negb (initialized_ self) then
      let table_exists := DoesTableExist (db_data self) in
      let '(inited, self) := MetaTable_Init_ F version compatible_version self in
      if negb inited then
        (INITIALIZATION_ERROR, self, Some response,
         [MetaTable_DoesTableExist table_exists; MetaTable_Init false])
      else
        let table_version :=
          if table_exists then GetVersionNumber (db_data self) else 0 in
        let self :=
          {| db_is_open := db_is_open self;
             db_data := db_data self;
             meta_table_db := meta_table_db self;
             initialized_ := true;
             memory_pressure_listener_ := true |} in
        (RESPONSE_OK, self,
         Some (set_result (value_ (INT_VALUE table_version)) response),
         [MetaTable_DoesTableExist table_exists; MetaTable_Init true]
           ++ (if table_exists then [MetaTable_GetVersionNumber] else []))
    else
      let table_version := GetVersionNumber (db_data self) in
      (RESPONSE_OK, self,
       Some (set_result (value_ (INT_VALUE table_version)) response),
       [MetaTable_GetVersionNumber])
  end.

(** [LedgerDatabaseImpl::Execute]; both pointers are asserted non-null. *)
Definition Execute (command : DBCommand) (command_response : DBCommandResponse)
           (self : LedgerDatabaseImpl) : Result DBCommandResponse :=
  if negb (initialized_ self) then
    (INITIALIZATION_ERROR, self, command_response, [])
  else
    let o := db_execute (mojom.command command) (db_data self) in
    let self := with_data (x_data o) self in
    if negb (x_ok o) then
      (COMMAND_ERROR, self, command_response,
       [Database_Execute (mojom.command command) false;
        LogError "DB Execute error: "])
    else
      (RESPONSE_OK, self,
       set_result (value_ (INT_VALUE (x_changes o))) command_response,
       [Database_Execute (mojom.command command) true]).

(** [db_.GetUniqueStatement(command->command.c_str())]. *)
Definition GetUniqueStatement (text : string) : Statement :=
  {| stmt_sql := text; stmt_bound := []; stmt_row := [] |}.

(** [for (auto const& binding : command->bindings)
       HandleBinding(&statement, *binding.get());] *)
Definition bind_all (statement : Statement) (bs : list DBCommandBinding)
  : Statement :=
  fold_left (fun st binding =>
               match HandleBinding (Some st) binding with
               | Some st' => st'
               | None => st
               end) bs statement.

(** [LedgerDatabaseImpl::Run]; both pointers are asserted non-null. *)
Definition Run (command : DBCommand) (command_response : DBCommandResponse)
           (self : LedgerDatabaseImpl) : Result DBCommandResponse :=
  if negb (initialized_ self) then
    (INITIALIZATION_ERROR, self, command_response, [])
  else
    let statement :=
      bind_all (GetUniqueStatement (mojom.command command))
               (bindings command) in
    let o := stmt_run statement (db_data self) in
    let self := with_data (x_data o) self in
    if negb (x_ok o) then
      (COMMAND_ERROR, self, command_response,
       [Statement_Run (mojom.command command) false; LogError "DB Run error: "])
    else
      (RESPONSE_OK, self,
       set_result (value_ (INT_VALUE (x_changes o))) command_response,
       [Statement_Run (mojom.command command) true]).

(** [while (statement.Step()) records.push_back(CreateRecord(...));]
    [pending] is what the successive calls of [Step] find; [Step] is true
    exactly on a row. *)
Fixpoint step_loop (pending : list StepOutcome) (statement : Statement)
         (record_bindings : list RecordBindingType) (acc : list DBRecord)
  : list DBRecord :=
  match pending with
  | StepRow row :: rest =>
    let statement :=
      {| stmt_sql := stmt_sql statement;
         stmt_bound := stmt_bound statement;
         stmt_row := row |} in
    step_loop rest statement record_bindings
              (acc ++ [CreateRecord (Some statement) record_bindings])
  | _ => acc
  end.

(** [LedgerDatabaseImpl::Read]. *)
Definition Read (command : option DBCommand)
           (command_response : option DBCommandResponse)
           (self : LedgerDatabaseImpl) : Result (option DBCommandResponse) :=
  if negb (initialized_ self) then
    (INITIALIZATION_ERROR, self, command_response, [])
  else
    match command, command_response with
    | Some command, Some response =>
      let statement :=
        bind_all (GetUniqueStatement (mojom.command command))
                 (bindings command) in
      let response := set_result (records []) response in
      let q := stmt_query statement (db_data self) in
      let rs := step_loop (q_steps q) statement (record_bindings command) [] in
      (RESPONSE_OK, with_data (q_data q) self,
       Some (set_result (records rs) response),
       [Statement_Steps (mojom.command command)])
    | _, _ => (RESPONSE_ERROR, self, command_response, [])
    end.

(** [LedgerDatabaseImpl::Migrate]. *)
Definition Migrate (version compatible_version : Z) (self : LedgerDatabaseImpl)
  : Status * LedgerDatabaseImpl * list Call :=
  if negb (initialized_ self) then (INITIALIZATION_ERROR, self, [])
  else
    let d := SetVersionNumber version (db_data self) in
    let d := SetCompatibleVersionNumber compatible_version d in
    (RESPONSE_OK, with_data d self,
     [MetaTable_SetVersionNumber version;
      MetaTable_SetCompatibleVersionNumber compatible_version]).

(** *** [LedgerDatabaseImpl::RunTransaction] *)

(** The response behind a pointer that was handed over non-null. *)
Definition pointee (r : DBCommandResponse) (p : option DBCommandResponse)
  : DBCommandResponse :=
  match p with Some r' => r' | None => r end.

(** The [switch] on [command->type]: the per-command status, the object, the
    response and [vacuum_requested] afterwards, and the calls made. *)
Definition dispatch (F : Faults) (transaction : DBTransaction)
           (command : DBCommand) (command_response : DBCommandResponse)
           (vacuum_requested : bool) (self : LedgerDatabaseImpl)
  : Status * LedgerDatabaseImpl * DBCommandResponse * bool * list Call :=
  match type command with
  | INITIALIZE =>
    let '(status, self, r, cs) :=
      Initialize F (version transaction) (compatible_version transaction)
                 (Some command_response) self in
    (status, self, pointee command_response r, vacuum_requested, cs)
  | READ =>
    let '(status, self, r, cs) :=
      Read (Some command) (Some command_response) self in
    (status, self, pointee command_response r, vacuum_requested, cs)
  | EXECUTE =>
    let '(status, self, r, cs) := Execute command command_response self in
    (status, self, r, vacuum_requested, cs)
  | RUN =>
    let '(status, self, r, cs) := Run command command_response self in
    (status, self, r, vacuum_requested, cs)
  | MIGRATE =>
    let '(status, self, cs) :=
      Migrate (version transaction) (compatible_version transaction) self in
    (status, self, command_response, vacuum_requested, cs)
  | VACUUM => (RESPONSE_OK, self, command_response, true, [])
  | CLOSE =>
    (* NOTREACHED() does not stop a release build *)
    (COMMAND_ERROR, self, command_response, vacuum_requested, [])
  end.

(** How the [for] loop over the commands is left: by the [return] that
    follows the rollback, or by running off its end. *)
Inductive LoopExit :=
| Returned (self : LedgerDatabaseImpl) (response : DBCommandResponse)
           (calls : list Call)
| Finished (self : LedgerDatabaseImpl) (response : DBCommandResponse)
           (vacuum_requested : bool) (calls : list Call).

Definition after_calls (cs : list Call) (e : LoopExit) : LoopExit :=
  match e with
  | Returned self r cs' => Returned self r (cs ++ cs')
  | Finished self r v cs' => Finished self r v (cs ++ cs')
  end.

(** What the text of [command] does to the transaction when the engine runs
    it on content [d]: [EXECUTE], [RUN] and [READ] hand the caller's text to
    the engine, the other commands have none. *)
Definition transaction_effect (command : DBCommand) (d : Store Tables)
  : TransactionEffect Tables :=
  match type command with
  | EXECUTE => x_transaction (db_execute (mojom.command command) d)
  | RUN =>
    x_transaction
      (stmt_run (bind_all (GetUniqueStatement (mojom.command command))
                          (bindings command)) d)
  | READ =>
    q_transaction
      (stmt_query (bind_all (GetUniqueStatement (mojom.command command))
                            (bindings command)) d)
  | _ => keeps
  end.

(** The transaction behind [committer] once [command] has been dispatched on
    [self] and made the calls [cs]: as it was unless the text reached the
    engine, and then as the engine left it. *)
Definition after_dispatch (committer : Transaction) (command : DBCommand)
           (self : LedgerDatabaseImpl) (cs : list Call) : Transaction :=
  if existsb is_engine_call cs then
    match transaction_effect command (db_data self) with
    | keeps => committer
    | ends => {| begun_at := begun_at committer; undo_to := None |}
    | begins_at d => {| begun_at := begun_at committer; undo_to := Some d |}
    end
  else committer.

(** The [for] loop over the commands.  The text of a command runs on the
    connection [committer] began its transaction on, so what the rollback can
    undo is followed from one command to the next. *)
Fixpoint run_commands (F : Faults) (transaction : DBTransaction)
         (committer : Transaction) (cmds : list DBCommand)
         (command_response : DBCommandResponse) (vacuum_requested : bool)
         (self : LedgerDatabaseImpl) : LoopExit :=
  match cmds with
  | [] => Finished self command_response vacuum_requested []
  | command :: rest =>
    let before := self in
    let '(status, self, command_response, vacuum_requested, cs) :=
      dispatch F transaction command command_response vacuum_requested self in
    let committer := after_dispatch committer command before cs in
    if negb (Status_eqb status RESPONSE_OK) then
      Returned (Rollback committer self) (set_status status command_response)
               (Dispatch command :: cs ++ [Transaction_Rollback])
    else
      after_calls (Dispatch command :: cs)
                  (run_commands F transaction committer rest command_response
                                vacuum_requested self)
  end.

(** [transaction->commands.size() == 1 &&
     transaction->commands[0]->type == mojom::DBCommand::Type::CLOSE] *)
Definition is_sole_close (cmds : list DBCommand) : bool :=
  (List.length cmds =? 1)%nat &&
  match nth_error cmds 0 with
  | Some c => Type_eqb (type c) CLOSE
  | None => false
  end.

(** [!db_.is_open() && !db_.Open(db_path_)]: whether the branch is skipped,
    i.e. the connection is open afterwards. *)
Definition ensure_open (F : Faults) (self : LedgerDatabaseImpl)
  : bool * LedgerDatabaseImpl * list Call :=
  if db_is_open self then (true, self, [])
  else if open_ok F then
    (true,
     {| db_is_open := true;
        db_data := db_data self;
        meta_table_db := meta_table_db self;
        initialized_ := initialized_ self;
        memory_pressure_listener_ := memory_pressure_listener_ self |},
     [Database_Open true])
  else (false, self, [Database_Open false]).

(** [db_.Close(); meta_table_.Reset(); initialized_ = false;] *)
Definition close_connection (self : LedgerDatabaseImpl) : LedgerDatabaseImpl :=
  {| db_is_open := false;
     db_data := db_data self;
     meta_table_db := false;
     initialized_ := false;
     memory_pressure_listener_ := memory_pressure_listener_ self |}.

Definition RunTransaction (F : Faults) (transaction : DBTransaction)
           (command_response : option DBCommandResponse)
           (self : LedgerDatabaseImpl)
  : LedgerDatabaseImpl * option DBCommandResponse * list Call :=
  match command_response with
  | None => (self, None, [])
  | Some response =>
    let '(opened, self, cs_open) := ensure_open F self in
    if negb opened then
      (self, Some (set_status INITIALIZATION_ERROR response), cs_open)
    else if is_sole_close (commands transaction) then
      (close_connection self, Some (set_status RESPONSE_OK response),
       cs_open ++ [Database_Close; MetaTable_Reset])
    else
      match Begin F self with
      | None =>
        (self, Some (set_status TRANSACTION_ERROR response),
         cs_open ++ [Transaction_Begin false])
      | Some committer =>
        match run_commands F transaction committer (commands transaction)
                           response false self with
        | Returned self response cs =>
          (self, Some response, cs_open ++ Transaction_Begin true :: cs)
        | Finished self response vacuum_requested cs =>
          let '(committed, self) := Commit F committer self in
          if negb committed then
            (self, Some (set_status TRANSACTION_ERROR response),
             cs_open ++ Transaction_Begin true :: cs
                     ++ [Transaction_Commit false])
          else if vacuum_requested then
            let o := db_execute "VACUUM" (db_data self) in
            (with_data (x_data o) self, Some response,
             cs_open ++ Transaction_Begin true :: cs
                     ++ [Transaction_Commit true; Database_Vacuum (x_ok o)]
                     ++ (if x_ok o then []
                         else [LogError "Error executing VACUUM: "]))
          else
            (self, Some response,
             cs_open ++ Transaction_Begin true :: cs
                     ++ [Transaction_Commit true])
        end
      end
  end.

End Executor.

(** ** A small engine to run the executor on

    One caller table, held as its list of rows.  A command whose text is
    ["fail"] inserts a row and then reports failure, so that a rollback has
    something to undo; the text ["COMMIT"] handed to [Database::Execute]
    succeeds, changes nothing and ends the transaction; any other text
    inserts the bound parameters (or, for [Database::Execute], an empty row)
    and succeeds.  Stepping a statement lists the table; the text ["broken"]
    makes the second step fail. *)
Module Scenario.

Definition Tables := list (list Column).

Definition as_cell (p : Z * Bound) : Column :=
  match snd p with
  | BindString s => CellText s
  | BindInt i | BindInt64 i => CellInteger i
  | BindDouble d => CellFloat d
  | BindBool b => CellInteger (if b then 1 else 0)
  | BindNull => CellNull
  end.

Definition insert (row : list Column) (d : Store Tables) : Store Tables :=
  {| meta := meta d; tables := tables d ++ [row] |}.

Definition execute (text : string) (d : Store Tables) : ExecOutcome Tables :=
  if String.eqb text "fail"
  then {| x_ok := false; x_data := insert [] d; x_changes := 0;
          x_transaction := keeps |}
  else if String.eqb text "VACUUM"
  then {| x_ok := false; x_data := d; x_changes := 0; x_transaction := keeps |}
  else if String.eqb text "COMMIT"
  then {| x_ok := true; x_data := d; x_changes := 0; x_transaction := ends |}
  else {| x_ok := true; x_data := insert [] d; x_changes := 1;
          x_transaction := keeps |}.

Definition run (st : Statement) (d : Store Tables) : ExecOutcome Tables :=
  let row := List.map as_cell (stmt_bound st) in
  {| x_ok := negb (String.eqb (stmt_sql st) "fail");
     x_data := insert row d;
     x_changes := if String.eqb (stmt_sql st) "fail" then 0 else 1;
     x_transaction := keeps |}.

Definition query (st : Statement) (d : Store Tables) : QueryOutcome Tables :=
  let rows := List.map StepRow (tables d) in
  {| q_steps := if String.eqb (stmt_sql st) "broken"
                then firstn 1 rows ++ StepError :: skipn 1 rows
                else rows ++ [StepDone];
     q_data := d;
     q_transaction := keeps |}.

#[global] Instance engine : Engine Tables :=
  {| db_execute := execute;
     stmt_run := run;
     stmt_query := query;
     coerce_string := fun _ => "";
     coerce_int64 := fun _ => 0;
     coerce_double := fun _ => 0 |}.

Definition no_faults : Faults :=
  {| open_ok := true; begin_ok := true; meta_init_ok := true; commit_ok := true |}.

Definition begin_fails : Faults :=
  {| open_ok := true; begin_ok := false; meta_init_ok := true; commit_ok := true |}.

Definition commit_fails : Faults :=
  {| open_ok := true; begin_ok := true; meta_init_ok := true; commit_ok := false |}.

(** A connection that was never opened, on a file that does not exist yet. *)
Definition brand_new : LedgerDatabaseImpl (Tables := Tables) :=
  {| db_is_open := false;
     db_data := {| meta := None; tables := [] |};
     meta_table_db := false;
     initialized_ := false;
     memory_pressure_listener_ := false |}.

(** An initialized connection on a database at version 3 holding two rows. *)
Definition in_use : LedgerDatabaseImpl (Tables := Tables) :=
  {| db_is_open := true;
     db_data := {| meta := Some {| meta_version := 3;
                                   meta_compatible_version := 2 |};
                   tables := [[CellInteger 1; CellText "a"];
                              [CellFloat 7; CellBlob "b"; CellNull]] |};
     meta_table_db := true;
     initialized_ := true;
     memory_pressure_listener_ := true |}.

Definition cmd (ty : Type_) (text : string) : DBCommand :=
  {| type := ty; command := text; bindings := []; record_bindings := [] |}.

Definition batch (v cv : Z) (cs : list DBCommand) : DBTransaction :=
  {| version := v; compatible_version := cv; commands := cs |}.

Definition insert_1_a : DBCommand :=
  {| type := RUN;
     command := "INSERT INTO t VALUES(?,?)";
     bindings := [ {| index := 0; value := INT64_VALUE 1 |};
                   {| index := 1; value := STRING_VALUE "a" |} ];
     record_bindings := [] |}.

End Scenario.

(** ** Vocabulary of the properties *)

(** Calls a command handler can make: everything except opening and closing
    the connection, the three calls on the transaction, the vacuum that
    follows the commit, and the [Dispatch] marker itself. *)
Definition inner_call (c : Call) : bool :=
  match c with
  | Database_Execute _ _ | Statement_Run _ _ | Statement_Steps _
  | MetaTable_DoesTableExist _ | MetaTable_Init _ | MetaTable_GetVersionNumber
  | MetaTable_SetVersionNumber _ | MetaTable_SetCompatibleVersionNumber _
  | LogError _ => true
  | _ => false
  end.

Definition loop_call (c : Call) : bool := is_Dispatch c || inner_call c.

(** The four command types guarded by [initialized_]. *)
Definition gated (ty : Type_) : bool :=
  match ty with
  | READ | EXECUTE | RUN | MIGRATE => true
  | _ => false
  end.

Definition is_VACUUM (c : DBCommand) : bool := Type_eqb (type c) VACUUM.
Definition is_CLOSE (c : DBCommand) : bool := Type_eqb (type c) CLOSE.

(** The rows a statement yields before [Step] first answers something else. *)
Fixpoint rows_until_stop (steps : list StepOutcome) : list (list Column) :=
  match steps with
  | StepRow row :: rest => row :: rows_until_stop rest
  | _ => []
  end.

(** A statement standing on [row]. *)
Definition on_row (statement : Statement) (row : list Column) : Statement :=
  {| stmt_sql := stmt_sql statement;
     stmt_bound := stmt_bound statement;
     stmt_row := row |}.

(** The conversion table of the inferred mode, as the specification words it:
    integer to Int64, float to Double, text to String, blob to String, null
    to Null with placeholder 0. *)
Definition spec_inferred (c : Column) : DBValue :=
  match c with
  | CellInteger i => INT64_VALUE i
  | CellFloat d => DOUBLE_VALUE d
  | CellText s => STRING_VALUE s
  | CellBlob bytes => STRING_VALUE bytes
  | CellNull => NULL_VALUE 0
  end.

Definition is_Rollback (c : Call) : bool :=
  match c with Transaction_Rollback => true | _ => false end.

Definition is_Commit (ok : bool) (c : Call) : bool :=
  match c with Transaction_Commit ok' => Bool.eqb ok ok' | _ => false end.

Section Vocabulary.
Context {Tables : Type} {engine : Engine Tables}.

(** The connection is open, or opening it will succeed. *)
Definition connected (F : Faults) (self : LedgerDatabaseImpl (Tables := Tables))
  : bool :=
  db_is_open self || open_ok F.

(** The loop of [RunTransaction] run on [cmds] from the point where
    [RunTransaction] enters it: connection opened, transaction begun on the
    content found, no vacuum requested yet. *)
Definition loop_from_start (F : Faults) (transaction : DBTransaction)
           (cmds : list DBCommand) (response : DBCommandResponse)
           (self : LedgerDatabaseImpl) : LoopExit :=
  let '(_, self, _) := ensure_open F self in
  run_commands F transaction (begun self) cmds response false self.

(** The transaction behind the committer after the loop has gone through
    [cmds], up to and including the first command that fails. *)
Fixpoint committer_after (F : Faults) (transaction : DBTransaction)
         (committer : Transaction) (cmds : list DBCommand)
         (response : DBCommandResponse) (vacuum_requested : bool)
         (self : LedgerDatabaseImpl (Tables := Tables)) : Transaction :=
  match cmds with
  | [] => committer
  | command :: rest =>
    let '(status, self', response, vacuum_requested, cs) :=
      dispatch F transaction command response vacuum_requested self in
    let committer := after_dispatch committer command self cs in
    if negb (Status_eqb status RESPONSE_OK) then committer
    else committer_after F transaction committer rest response
                         vacuum_requested self'
  end.

(** The same, from the point where [RunTransaction] enters the loop. *)
Definition committer_from_start (F : Faults) (transaction : DBTransaction)
           (cmds : list DBCommand) (response : DBCommandResponse)
           (self : LedgerDatabaseImpl (Tables := Tables)) : Transaction :=
  let '(_, self, _) := ensure_open F self in
  committer_after F transaction (begun self) cmds response false self.

(** The object after the rollback that follows the failure of [c], reached
    after the commands [pre] on the object [s1], when its dispatch made the
    calls [cs2] and left the object [s2]. *)
Definition rolled_back_at (F : Faults) (transaction : DBTransaction)
           (pre : list DBCommand) (c : DBCommand) (response : DBCommandResponse)
           (self s1 : LedgerDatabaseImpl (Tables := Tables)) (cs2 : list Call)
           (s2 : LedgerDatabaseImpl (Tables := Tables)) : LedgerDatabaseImpl :=
  Rollback (after_dispatch (committer_from_start F transaction pre response self)
                           c s1 cs2) s2.

(** A command whose text never ends or restarts the transaction it runs in,
    whatever the content. *)
Definition leaves_transaction_alone (c : DBCommand) : Prop :=
  forall d : Store Tables, transaction_effect c d = keeps.

(** The object once the connection is open, and the call that got it there. *)
Definition opened (self : LedgerDatabaseImpl (Tables := Tables))
  : LedgerDatabaseImpl :=
  {| db_is_open := true;
     db_data := db_data self;
     meta_table_db := meta_table_db self;
     initialized_ := initialized_ self;
     memory_pressure_listener_ := memory_pressure_listener_ self |}.

Definition open_calls (self : LedgerDatabaseImpl (Tables := Tables)) : list Call :=
  if db_is_open self then [] else [Database_Open true].

(** The seven ways through [RunTransaction] when the response is not null,
    each with the object, the response and the calls it ends with. *)
Inductive Path (F : Faults) (t : DBTransaction) (r : DBCommandResponse)
          (s : LedgerDatabaseImpl (Tables := Tables))
  : LedgerDatabaseImpl * option DBCommandResponse * list Call -> Prop :=
| open_failed :
    connected F s = false ->
    Path F t r s
         (s, Some (set_status INITIALIZATION_ERROR r), [Database_Open false])
| closed :
    connected F s = true ->
    is_sole_close (commands t) = true ->
    Path F t r s
         (close_connection s, Some (set_status RESPONSE_OK r),
          open_calls s ++ [Database_Close; MetaTable_Reset])
| begin_failed :
    connected F s = true ->
    is_sole_close (commands t) = false ->
    begin_ok F = false ->
    Path F t r s
         (opened s, Some (set_status TRANSACTION_ERROR r),
          open_calls s ++ [Transaction_Begin false])
| rolled_back s' r' cs :
    connected F s = true ->
    is_sole_close (commands t) = false ->
    begin_ok F = true ->
    loop_from_start F t (commands t) r s = Returned s' r' cs ->
    Path F t r s
         (s', Some r', open_calls s ++ Transaction_Begin true :: cs)
| commit_failed s' r' v cs :
    connected F s = true ->
    is_sole_close (commands t) = false ->
    begin_ok F = true ->
    loop_from_start F t (commands t) r s = Finished s' r' v cs ->
    commit_ok F = false ->
    Path F t r s
         (with_data (db_data s) s', Some (set_status TRANSACTION_ERROR r'),
          open_calls s ++ Transaction_Begin true :: cs
                     ++ [Transaction_Commit false])
| committed_vacuumed s' r' cs :
    connected F s = true ->
    is_sole_close (commands t) = false ->
    begin_ok F = true ->
    loop_from_start F t (commands t) r s = Finished s' r' true cs ->
    commit_ok F = true ->
    Path F t r s
         (with_data (x_data (db_execute "VACUUM" (db_data s'))) s', Some r',
          open_calls s ++ Transaction_Begin true :: cs
                     ++ [Transaction_Commit true;
                         Database_Vacuum (x_ok (db_execute "VACUUM" (db_data s')))]
                     ++ (if x_ok (db_execute "VACUUM" (db_data s')) then []
                         else [LogError "Error executing VACUUM: "]))
| committed s' r' cs :
    connected F s = true ->
    is_sole_close (commands t) = false ->
    begin_ok F = true ->
    loop_from_start F t (commands t) r s = Finished s' r' false cs ->
    commit_ok F = true ->
    Path F t r s
         (s', Some r',
          open_calls s ++ Transaction_Begin true :: cs
                     ++ [Transaction_Commit true]).

(** The three things [RunTransaction] ends with. *)
Definition object_of
           (x : LedgerDatabaseImpl (Tables := Tables)
                * option DBCommandResponse * list Call)
  : LedgerDatabaseImpl := fst (fst x).

Definition response_of
           (x : LedgerDatabaseImpl (Tables := Tables)
                * option DBCommandResponse * list Call)
  : option DBCommandResponse := snd (fst x).

Definition calls_of
           (x : LedgerDatabaseImpl (Tables := Tables)
                * option DBCommandResponse * list Call)
  : list Call := snd x.

(** Status and scalar carried by a response pointer. *)
Definition reported (p : option DBCommandResponse) : option Status :=
  option_map status p.

Definition scalar (p : option DBCommandResponse) : option DBValue :=
  match p with
  | Some {| result := Some (value_ v) |} => Some v
  | _ => None
  end.

End Vocabulary.

(** ** Vocabulary of the further properties *)

(** The bind call that goes with each tag of a value, as the binder is
    described: String to bind-text, Int32 to bind-int32, Int64 to bind-int64,
    Double to bind-double, Bool to bind-bool, Null to bind-null. *)
Definition bound_of (v : DBValue) : Bound :=
  match v with
  | STRING_VALUE s => BindString s
  | INT_VALUE i => BindInt i
  | INT64_VALUE i => BindInt64 i
  | DOUBLE_VALUE d => BindDouble d
  | BOOL_VALUE b => BindBool b
  | NULL_VALUE _ => BindNull
  end.

(** The declared column type a field value answers to, if any. *)
Definition declared_type (v : DBValue) : option RecordBindingType :=
  match v with
  | STRING_VALUE _ => Some STRING_TYPE
  | INT_VALUE _ => Some INT_TYPE
  | INT64_VALUE _ => Some INT64_TYPE
  | DOUBLE_VALUE _ => Some DOUBLE_TYPE
  | BOOL_VALUE _ => Some BOOL_TYPE
  | NULL_VALUE _ => None
  end.

Definition is_INITIALIZE (c : DBCommand) : bool := Type_eqb (type c) INITIALIZE.

Definition is_Database_Open (c : Call) : bool :=
  match c with Database_Open _ => true | _ => false end.

Definition is_Begin (c : Call) : bool :=
  match c with Transaction_Begin _ => true | _ => false end.

Definition is_any_Commit (c : Call) : bool :=
  match c with Transaction_Commit _ => true | _ => false end.

Definition is_MetaTable_Init (c : Call) : bool :=
  match c with MetaTable_Init _ => true | _ => false end.

Definition is_failed_Begin_or_Commit (c : Call) : bool :=
  match c with
  | Transaction_Begin false | Transaction_Commit false => true
  | _ => false
  end.

Definition is_begun (c : Call) : bool :=
  match c with Transaction_Begin true => true | _ => false end.

(** How often a kind of call was made. *)
Definition count (P : Call -> bool) (cs : list Call) : nat :=
  List.length (filter P cs).

(** The statuses each command type can come back with from the [switch]. *)
Definition may_yield (ty : Type_) (st : Status) : bool :=
  match ty, st with
  | INITIALIZE, (RESPONSE_OK | INITIALIZATION_ERROR) => true
  | READ, (RESPONSE_OK | INITIALIZATION_ERROR) => true
  | EXECUTE, (RESPONSE_OK | INITIALIZATION_ERROR | COMMAND_ERROR) => true
  | RUN, (RESPONSE_OK | INITIALIZATION_ERROR | COMMAND_ERROR) => true
  | MIGRATE, (RESPONSE_OK | INITIALIZATION_ERROR) => true
  | VACUUM, RESPONSE_OK => true
  | CLOSE, COMMAND_ERROR => true
  | _, _ => false
  end.

Section FurtherVocabulary.
Context {Tables : Type}.

(** An initialized object has an open connection, a meta table holding it
    and a memory-pressure listener. *)
Definition coherent (self : LedgerDatabaseImpl (Tables := Tables)) : Prop :=
  initialized_ self = true ->
  db_is_open self = true /\
  meta_table_db self = true /\
  memory_pressure_listener_ self = true.

(** The object and the calls a loop exit carries. *)
Definition exit_object (e : LoopExit (Tables := Tables)) : LedgerDatabaseImpl :=
  match e with
  | Returned self _ _ => self
  | Finished self _ _ _ => self
  end.

Definition exit_calls (e : LoopExit (Tables := Tables)) : list Call :=
  match e with
  | Returned _ _ cs => cs
  | Finished _ _ _ cs => cs
  end.

End FurtherVocabulary.

(** ** Shared lemmas *)

(** Settles [forall c, loop_call c = true -> P c = false] for a test [P] on
    calls made outside the loop. *)
Ltac outside := intros [] H; cbv in H; try discriminate H; reflexivity.

Section Lemmas.
Context {Tables : Type} {engine : Engine Tables}.
Implicit Types (self s : LedgerDatabaseImpl (Tables := Tables)).
Implicit Types (r : DBCommandResponse) (cs : list Call) (F : Faults).

Lemma Status_eqb_eq (a b : Status) : Status_eqb a b = true <-> a = b.
Proof. destruct a, b; simpl; split; congruence. Qed.

Lemma Type_eqb_eq (a b : Type_) : Type_eqb a b = true <-> a = b.
Proof. destruct a, b; simpl; split; congruence. Qed.

Lemma dispatched_app cs1 cs2 :
  dispatched (cs1 ++ cs2) = dispatched cs1 ++ dispatched cs2.
Proof.
  induction cs1 as [|c cs1 IH]; simpl; [reflexivity|].
  destruct c; simpl; rewrite ?IH; reflexivity.
Qed.

Lemma dispatched_inner cs : forallb inner_call cs = true -> dispatched cs = [].
Proof.
  induction cs as [|c cs IH]; simpl; [reflexivity|].
  intros H; apply andb_true_iff in H as [Hc Hcs].
  destruct c; simpl in *; try discriminate; auto.
Qed.

Lemma inner_is_loop_call cs :
  forallb inner_call cs = true -> forallb loop_call cs = true.
Proof.
  rewrite !forallb_forall; intros H c Hc; unfold loop_call.
  rewrite (H c Hc); apply orb_true_r.
Qed.

(** What a single dispatch can and cannot do. *)
Lemma dispatch_facts F t c r v s st s' r' v' cs :
  dispatch F t c r v s = (st, s', r', v', cs) ->
  forallb inner_call cs = true /\
  status r' = status r /\
  db_is_open s' = db_is_open s /\
  st <> RESPONSE_ERROR /\
  v' = v || is_VACUUM c.
Proof.
  unfold dispatch, is_VACUUM, Initialize, Read, Execute, Run, Migrate,
    MetaTable_Init_.
  destruct (type c); simpl;
    destruct (initialized_ s); simpl;
    repeat match goal with
           | |- context [if ?b then _ else _] => destruct b eqn:?; simpl
           end;
    intros E; inversion E; subst; clear E; simpl;
    rewrite ?orb_false_r, ?orb_true_r; repeat split; try congruence.
Qed.

Lemma dispatch_CLOSE F t c r v s :
  type c = CLOSE -> dispatch F t c r v s = (COMMAND_ERROR, s, r, v, []).
Proof. intros H; unfold dispatch; rewrite H; reflexivity. Qed.

Lemma dispatch_VACUUM F t c r v s :
  type c = VACUUM -> dispatch F t c r v s = (RESPONSE_OK, s, r, true, []).
Proof. intros H; unfold dispatch; rewrite H; reflexivity. Qed.

Lemma dispatch_gated F t c r v s :
  initialized_ s = false -> gated (type c) = true ->
  dispatch F t c r v s = (INITIALIZATION_ERROR, s, r, v, []).
Proof.
  intros Hi Hg; unfold dispatch, Read, Execute, Run, Migrate.
  destruct (type c); try discriminate; rewrite Hi; reflexivity.
Qed.

(** A command reaches the engine only on an initialized connection, and
    a connection once initialized stays so through the dispatch. *)
Lemma dispatch_engine_calls F t c r v s st s' r' v' cs :
  dispatch F t c r v s = (st, s', r', v', cs) ->
  (existsb is_engine_call cs = true -> initialized_ s = true) /\
  (initialized_ s = true -> initialized_ s' = true).
Proof.
  unfold dispatch, Initialize, Read, Execute, Run, Migrate, MetaTable_Init_.
  destruct (type c); simpl;
    destruct (initialized_ s) eqn:Hi; simpl;
    repeat match goal with
           | |- context [if ?b then _ else _] => destruct b eqn:?; simpl
           end;
    intros E; inversion E; subst; clear E; simpl;
    split; intros; try discriminate; try reflexivity; assumption.
Qed.

(** The outcome [after_dispatch] looks at is the outcome of the call the
    dispatch made: a command that reaches the engine is an [EXECUTE], a [RUN]
    or a [READ], and the content the object sees afterwards is the one that
    call left. *)
Lemma engine_call_of_the_command F t c r v s st s' r' v' cs :
  dispatch F t c r v s = (st, s', r', v', cs) ->
  existsb is_engine_call cs = true ->
  let statement :=
    bind_all (GetUniqueStatement (command c)) (bindings c) in
  (type c = EXECUTE /\
   db_data s' = x_data (db_execute (command c) (db_data s))) \/
  (type c = RUN /\ db_data s' = x_data (stmt_run statement (db_data s))) \/
  (type c = READ /\ db_data s' = q_data (stmt_query statement (db_data s))).
Proof.
  unfold dispatch, Initialize, Read, Execute, Run, Migrate, MetaTable_Init_.
  destruct (type c); simpl;
    destruct (initialized_ s) eqn:Hi; simpl;
    repeat match goal with
           | |- context [if ?b then _ else _] => destruct b eqn:?; simpl
           end;
    intros E; inversion E; subst; clear E; simpl;
    intros H; try discriminate H; auto.
Qed.

(** When the transaction is left alone. *)
Lemma after_dispatch_alone k c s cs :
  leaves_transaction_alone c -> after_dispatch k c s cs = k.
Proof.
  intros H; unfold after_dispatch; rewrite (H (db_data s)).
  destruct (existsb is_engine_call cs); reflexivity.
Qed.

Lemma after_dispatch_no_engine_call k c s cs :
  existsb is_engine_call cs = false -> after_dispatch k c s cs = k.
Proof. intros H; unfold after_dispatch; rewrite H; reflexivity. Qed.


Lemma committer_after_uninitialized F t k cmds r v s s1 r1 v1 cs1 :
  run_commands F t k cmds r v s = Finished s1 r1 v1 cs1 ->
  initialized_ s1 = false ->
  committer_after F t k cmds r v s = k /\ initialized_ s = false.
Proof.
  revert k r v s cs1; induction cmds as [|c rest IH]; intros k r v s cs1 H Hi;
    simpl in H |- *.
  - inversion H; subst; split; [reflexivity | exact Hi].
  - destruct (dispatch F t c r v s) as [[[[st s2] r2] v2] cs2] eqn:Ed.
    destruct (dispatch_engine_calls _ _ _ _ _ _ Ed) as [Heng Hmono].
    destruct (negb (Status_eqb st RESPONSE_OK)); [discriminate|].
    destruct (run_commands F t (after_dispatch k c s cs2) rest r2 v2 s2)
      as [|s3 r3 v3 cs3] eqn:E; simpl in H; [discriminate|].
    inversion H; subst.
    destruct (IH _ _ _ _ _ E Hi) as [Hk Hi2].
    assert (His : initialized_ s = false).
    { destruct (initialized_ s); [|reflexivity].
      rewrite (Hmono eq_refl) in Hi2; discriminate. }
    assert (Hno : existsb is_engine_call cs2 = false).
    { destruct (existsb is_engine_call cs2); [|reflexivity].
      rewrite (Heng eq_refl) in His; discriminate. }
    rewrite Hk, after_dispatch_no_engine_call by exact Hno.
    split; [reflexivity | exact His].
Qed.

(** The loop stops at the first command whose status is not [RESPONSE_OK]. *)
Lemma run_commands_fail_head F t k c post r v s st s2 r2 v2 cs2 :
  dispatch F t c r v s = (st, s2, r2, v2, cs2) ->
  st <> RESPONSE_OK ->
  run_commands F t k (c :: post) r v s =
  Returned (Rollback (after_dispatch k c s cs2) s2) (set_status st r2)
           (Dispatch c :: cs2 ++ [Transaction_Rollback]).
Proof.
  intros E Hst; simpl; rewrite E.
  destruct (Status_eqb st RESPONSE_OK) eqn:Eq; [|reflexivity].
  apply Status_eqb_eq in Eq; contradiction.
Qed.

Lemma after_calls_after_calls cs1 cs2 (e : LoopExit (Tables := Tables)) :
  after_calls cs1 (after_calls cs2 e) = after_calls (cs1 ++ cs2) e.
Proof. destruct e; simpl; rewrite app_assoc; reflexivity. Qed.

(** A prefix that runs to its end hands its state over to the rest. *)
Lemma run_commands_app F t k pre post r v s s1 r1 v1 cs1 :
  run_commands F t k pre r v s = Finished s1 r1 v1 cs1 ->
  run_commands F t k (pre ++ post) r v s =
  after_calls cs1
              (run_commands F t (committer_after F t k pre r v s) post r1 v1 s1).
Proof.
  revert k r v s cs1.
  induction pre as [|c pre IH]; intros k r v s cs1 H.
  - simpl in H; inversion H; subst; simpl.
    destruct (run_commands F t k post r1 v1 s1); reflexivity.
  - simpl in H |- *.
    destruct (dispatch F t c r v s) as [[[[st s2] r2] v2] cs2].
    destruct (negb (Status_eqb st RESPONSE_OK)); [discriminate|].
    destruct (run_commands F t (after_dispatch k c s cs2) pre r2 v2 s2)
      as [|s3 r3 v3 cs3] eqn:E; simpl in H; [discriminate|].
    inversion H; subst.
    rewrite (IH _ _ _ _ _ E), after_calls_after_calls; reflexivity.
Qed.

(** Leaving the loop by its [return]. *)
Lemma run_commands_Returned F t k cmds r v s s' r' cs :
  run_commands F t k cmds r v s = Returned s' r' cs ->
  (Forall leaves_transaction_alone (dispatched cs) ->
   forall d, undo_to k = Some d -> db_data s' = d) /\
  db_is_open s' = db_is_open s /\
  status r' <> RESPONSE_OK /\
  status r' <> RESPONSE_ERROR /\
  (exists body, cs = body ++ [Transaction_Rollback] /\
                forallb loop_call body = true) /\
  (exists pre c post, cmds = pre ++ c :: post /\ dispatched cs = pre ++ [c]).
Proof.
  revert k r v s cs.
  induction cmds as [|c rest IH]; intros k r v s cs H; [discriminate|].
  simpl in H.
  destruct (dispatch F t c r v s) as [[[[st s2] r2] v2] cs2] eqn:Ed.
  destruct (dispatch_facts _ _ _ _ _ _ Ed) as (Hin & Hst & Hop & Hne & Hv).
  destruct (Status_eqb st RESPONSE_OK) eqn:Eq; simpl in H.
  - destruct (run_commands F t (after_dispatch k c s cs2) rest r2 v2 s2)
      as [s3 r3 cs3|] eqn:E; simpl in H; [|discriminate].
    inversion H; subst; clear H.
    destruct (IH _ _ _ _ _ E)
      as (Hd & Ho & H1 & H2 & (body & Hb & Hl) & (pre & c' & post & Hc & Hdis)).
    split; [|split; [congruence|split; [exact H1|split; [exact H2|split]]]].
    + intros Hall d Hk; simpl in Hall.
      rewrite dispatched_app, (dispatched_inner _ Hin) in Hall; simpl in Hall.
      inversion Hall as [|? ? Hc0 Hrest]; subst.
      apply (Hd Hrest); rewrite after_dispatch_alone by exact Hc0; exact Hk.
    + exists (Dispatch c :: cs2 ++ body); split.
      * rewrite Hb; simpl; rewrite app_assoc; reflexivity.
      * simpl; rewrite forallb_app, Hl, (inner_is_loop_call _ Hin); reflexivity.
    + exists (c :: pre), c', post; split; [rewrite Hc; reflexivity|].
      simpl; rewrite dispatched_app, (dispatched_inner _ Hin), Hdis; reflexivity.
  - inversion H; subst; clear H.
    split; [|split; [|split; [|split; [|split]]]].
    + intros Hall d Hk; simpl in Hall.
      inversion Hall as [|? ? Hc0 Hrest]; subst.
      rewrite after_dispatch_alone by exact Hc0; unfold Rollback.
      rewrite Hk; reflexivity.
    + unfold Rollback; destruct (undo_to _); simpl; exact Hop.
    + simpl; intros Hs; subst st; discriminate.
    + simpl; exact Hne.
    + exists (Dispatch c :: cs2); split; [reflexivity|].
      simpl; apply (inner_is_loop_call _ Hin).
    + exists [], c, rest; split; [reflexivity|].
      simpl; rewrite dispatched_app, (dispatched_inner _ Hin); reflexivity.
Qed.

(** Leaving the loop by running off its end. *)
Lemma run_commands_Finished F t k cmds r v s s' r' v' cs :
  run_commands F t k cmds r v s = Finished s' r' v' cs ->
  status r' = status r /\
  db_is_open s' = db_is_open s /\
  forallb loop_call cs = true /\
  dispatched cs = cmds /\
  v' = v || existsb is_VACUUM cmds /\
  existsb is_CLOSE cmds = false.
Proof.
  revert k r v s cs.
  induction cmds as [|c rest IH]; intros k r v s cs H; simpl in H.
  - inversion H; subst; simpl; rewrite orb_false_r; repeat split; reflexivity.
  - destruct (dispatch F t c r v s) as [[[[st s2] r2] v2] cs2] eqn:Ed.
    destruct (dispatch_facts _ _ _ _ _ _ Ed) as (Hin & Hst & Hop & Hne & Hv).
    destruct (Status_eqb st RESPONSE_OK) eqn:Eq; simpl in H; [|discriminate].
    destruct (run_commands F t (after_dispatch k c s cs2) rest r2 v2 s2)
      as [|s3 r3 v3 cs3] eqn:E; simpl in H; [discriminate|].
    inversion H; subst; clear H.
    destruct (IH _ _ _ _ _ E) as (H1 & H2 & H3 & H4 & H5 & H6).
    apply Status_eqb_eq in Eq; subst st.
    repeat split; try congruence.
    + simpl; rewrite forallb_app, H3, (inner_is_loop_call _ Hin); reflexivity.
    + simpl; rewrite dispatched_app, (dispatched_inner _ Hin), H4; reflexivity.
    + simpl; rewrite orb_assoc; exact H5.
    + simpl; rewrite H6, orb_false_r.
      unfold is_CLOSE; destruct (Type_eqb (type c) CLOSE) eqn:Ec; [|reflexivity].
      apply Type_eqb_eq in Ec; rewrite (dispatch_CLOSE _ _ _ _ _ _ Ec) in Ed.
      discriminate.
Qed.

(** Opening: an open connection is left alone, a closed one is opened. *)
Lemma ensure_open_connected F s :
  connected F s = true -> ensure_open F s = (true, opened s, open_calls s).
Proof.
  unfold connected, ensure_open, opened, open_calls.
  destruct s as [o d m i l]; simpl.
  destruct o; simpl; [reflexivity|].
  intros ->; reflexivity.
Qed.

Lemma ensure_open_not_connected F s :
  connected F s = false -> ensure_open F s = (false, s, [Database_Open false]).
Proof.
  unfold connected, ensure_open.
  destruct (db_is_open s); simpl; [discriminate|].
  intros ->; reflexivity.
Qed.

Lemma loop_from_start_connected F t cmds r s :
  connected F s = true ->
  loop_from_start F t cmds r s =
  run_commands F t (begun s) cmds r false (opened s).
Proof.
  intros H; unfold loop_from_start; rewrite (ensure_open_connected _ _ H).
  reflexivity.
Qed.

(** Every call of [RunTransaction] with a response follows one of the seven
    paths. *)
Lemma RunTransaction_path F t r s : Path F t r s (RunTransaction F t (Some r) s).
Proof.
  unfold RunTransaction.
  destruct (connected F s) eqn:Hc.
  2:{ rewrite (ensure_open_not_connected _ _ Hc); simpl.
      apply open_failed; exact Hc. }
  pose proof (loop_from_start_connected F t (commands t) r s Hc) as Hl.
  rewrite (ensure_open_connected _ _ Hc); simpl.
  destruct (is_sole_close (commands t)) eqn:Hs.
  { change (close_connection (opened s)) with (close_connection s).
    apply closed; assumption. }
  unfold Begin; destruct (begin_ok F) eqn:Hb.
  2:{ apply begin_failed; assumption. }
  simpl in *.
  change (begun (opened s)) with (begun s).
  destruct (run_commands F t (begun s) (commands t) r false
                         (opened s)) as [s' r' cs|s' r' v cs] eqn:E.
  { apply rolled_back; assumption. }
  unfold Commit; destruct (commit_ok F) eqn:Hk; simpl.
  2:{ apply commit_failed with (v := v); assumption. }
  destruct v.
  - apply committed_vacuumed; assumption.
  - apply committed; assumption.
Qed.

(** The loop as [RunTransaction] starts it, seen from its two exits. *)
Lemma loop_from_start_Returned F t cmds r s s' r' cs :
  connected F s = true ->
  loop_from_start F t cmds r s = Returned s' r' cs ->
  (Forall leaves_transaction_alone (dispatched cs) -> db_data s' = db_data s) /\
  db_is_open s' = true /\
  status r' <> RESPONSE_OK /\
  status r' <> RESPONSE_ERROR /\
  (exists body, cs = body ++ [Transaction_Rollback] /\
                forallb loop_call body = true) /\
  (exists pre c post, cmds = pre ++ c :: post /\ dispatched cs = pre ++ [c]).
Proof.
  intros Hc H; rewrite (loop_from_start_connected _ _ _ _ _ Hc) in H.
  destruct (run_commands_Returned _ _ _ _ _ _ _ H) as (Hd & Hrest).
  split; [|exact Hrest].
  intros Hall; apply (Hd Hall); reflexivity.
Qed.

Lemma loop_from_start_Finished F t cmds r s s' r' v' cs :
  connected F s = true ->
  loop_from_start F t cmds r s = Finished s' r' v' cs ->
  status r' = status r /\
  db_is_open s' = true /\
  forallb loop_call cs = true /\
  dispatched cs = cmds /\
  v' = existsb is_VACUUM cmds /\
  existsb is_CLOSE cmds = false.
Proof.
  intros Hc H; rewrite (loop_from_start_connected _ _ _ _ _ Hc) in H.
  exact (run_commands_Finished _ _ _ _ _ _ _ H).
Qed.

Lemma committer_from_start_connected F t cmds r s :
  connected F s = true ->
  committer_from_start F t cmds r s =
  committer_after F t (begun s) cmds r false (opened s).
Proof.
  intros H; unfold committer_from_start; rewrite (ensure_open_connected _ _ H).
  reflexivity.
Qed.

(** A batch whose prefix [pre] succeeds and whose next command fails leaves
    the loop at that command, rolled back. *)
Lemma loop_first_failure F t pre c post r s s1 r1 v1 cs1 st s2 r2 v2 cs2 :
  connected F s = true ->
  loop_from_start F t pre r s = Finished s1 r1 v1 cs1 ->
  dispatch F t c r1 v1 s1 = (st, s2, r2, v2, cs2) ->
  st <> RESPONSE_OK ->
  loop_from_start F t (pre ++ c :: post) r s =
  Returned (rolled_back_at F t pre c r s s1 cs2 s2) (set_status st r2)
           (cs1 ++ Dispatch c :: cs2 ++ [Transaction_Rollback]).
Proof.
  intros Hc Hpre Hd Hst.
  unfold rolled_back_at; rewrite (committer_from_start_connected _ _ _ _ _ Hc).
  rewrite (loop_from_start_connected _ _ _ _ _ Hc) in Hpre.
  rewrite (loop_from_start_connected _ _ _ _ _ Hc).
  rewrite (run_commands_app _ _ _ _ (c :: post) _ _ _ Hpre).
  erewrite run_commands_fail_head by eassumption.
  reflexivity.
Qed.

(** The rollback changes the content only. *)
Lemma rolled_back_at_flags F t pre c r s s1 cs2 s2 :
  db_is_open (rolled_back_at F t pre c r s s1 cs2 s2) = db_is_open s2 /\
  meta_table_db (rolled_back_at F t pre c r s s1 cs2 s2) = meta_table_db s2 /\
  initialized_ (rolled_back_at F t pre c r s s1 cs2 s2) = initialized_ s2 /\
  memory_pressure_listener_ (rolled_back_at F t pre c r s s1 cs2 s2) =
  memory_pressure_listener_ s2.
Proof.
  unfold rolled_back_at, Rollback; destruct (undo_to _); repeat split.
Qed.


(** ... and when no command has reached the engine, the connection being
    uninitialized throughout. *)
Lemma rolled_back_at_uninitialized
      F t pre c r s s1 r1 v1 cs1 st s2 r2 v2 cs2 :
  connected F s = true ->
  loop_from_start F t pre r s = Finished s1 r1 v1 cs1 ->
  initialized_ s1 = false ->
  dispatch F t c r1 v1 s1 = (st, s2, r2, v2, cs2) ->
  rolled_back_at F t pre c r s s1 cs2 s2 = with_data (db_data s) s2.
Proof.
  intros Hc Hpre Hi Hd.
  unfold rolled_back_at; rewrite (committer_from_start_connected _ _ _ _ _ Hc).
  rewrite (loop_from_start_connected _ _ _ _ _ Hc) in Hpre.
  destruct (committer_after_uninitialized _ _ _ _ _ _ _ Hpre Hi) as [-> _].
  destruct (dispatch_engine_calls _ _ _ _ _ _ Hd) as [Heng _].
  rewrite after_dispatch_no_engine_call; [reflexivity|].
  destruct (existsb is_engine_call cs2); [|reflexivity].
  rewrite (Heng eq_refl) in Hi; discriminate.
Qed.

(** A batch with a command that is not [CLOSE], or with two commands or more,
    does not take the stand-alone close. *)
Lemma is_sole_close_iff cmds :
  is_sole_close cmds = true <-> exists c, cmds = [c] /\ type c = CLOSE.
Proof.
  unfold is_sole_close; split.
  - destruct cmds as [|c [|c' rest]]; simpl; try discriminate.
    intros H; exists c; split; [reflexivity|]; apply Type_eqb_eq; exact H.
  - intros (c & -> & Hc); simpl; apply Type_eqb_eq; exact Hc.
Qed.

Lemma not_sole_close_in_the_middle pre c post :
  type c <> CLOSE \/ pre ++ post <> [] ->
  is_sole_close (pre ++ c :: post) = false.
Proof.
  intros H; destruct (is_sole_close (pre ++ c :: post)) eqn:E; [|reflexivity].
  apply is_sole_close_iff in E as (c' & Heq & Hc').
  destruct pre as [|p pre]; simpl in Heq.
  - inversion Heq; subst; destruct H as [H|H]; [contradiction|].
    simpl in H; contradiction.
  - inversion Heq as [[Hp Hrest]]; destruct pre; discriminate.
Qed.

(** The stepping loop collects one record per row, in order, up to the first
    step that is not a row. *)
Lemma step_loop_rows pending statement bs acc :
  step_loop pending statement bs acc =
  acc ++ List.map (fun row => CreateRecord (Some (on_row statement row)) bs)
                  (rows_until_stop pending).
Proof.
  revert statement acc.
  induction pending as [|o rest IH]; intros statement acc; simpl.
  - rewrite app_nil_r; reflexivity.
  - destruct o; simpl; rewrite ?app_nil_r; try reflexivity.
    rewrite IH, <- app_assoc; reflexivity.
Qed.

Lemma inferred_field_spec statement row column :
  inferred_field (on_row statement row) column =
  spec_inferred (nth column row CellNull).
Proof.
  unfold inferred_field, GetColumnType, ColumnInt64, ColumnDouble, ColumnString,
    ColumnBlobAsString, cell; simpl.
  destruct (nth column row CellNull); reflexivity.
Qed.

Lemma map_nth_seq (A B : Type) (g : A -> B) (d : A) (pre row : list A) :
  List.map (fun i => g (nth i (pre ++ row) d))
           (seq (List.length pre) (List.length row)) =
  List.map g row.
Proof.
  revert pre; induction row as [|x row IH]; intros pre; simpl; [reflexivity|].
  f_equal.
  - rewrite app_nth2, Nat.sub_diag by apply Nat.le_refl; reflexivity.
  - specialize (IH (pre ++ [x])).
    rewrite <- app_assoc, length_app, Nat.add_comm in IH; exact IH.
Qed.

(** Calls made inside the loop are none of the calls [RunTransaction] makes
    around it. *)
Lemma existsb_none (P Q : Call -> bool) cs :
  (forall c, Q c = true -> P c = false) ->
  forallb Q cs = true -> existsb P cs = false.
Proof.
  intros HPQ; induction cs as [|c cs IH]; simpl; [reflexivity|].
  intros H; apply andb_true_iff in H as [Hc Hcs].
  rewrite (HPQ c Hc), (IH Hcs); reflexivity.
Qed.

Lemma loop_calls_outside (P : Call -> bool) cs :
  (forall c, loop_call c = true -> P c = false) ->
  forallb loop_call cs = true -> existsb P cs = false.
Proof. apply existsb_none. Qed.

Lemma open_calls_outside (P : Call -> bool) s :
  (forall ok, P (Database_Open ok) = false) -> existsb P (open_calls s) = false.
Proof.
  intros H; unfold open_calls; destruct (db_is_open s); simpl;
    rewrite ?H; reflexivity.
Qed.

Lemma dispatched_open_calls s : dispatched (open_calls s) = [].
Proof. unfold open_calls; destruct (db_is_open s); reflexivity. Qed.

(** The whole of [RunTransaction] on a batch whose prefix [pre] succeeds and
    whose next command [c] fails with [st]. *)
Lemma RunTransaction_first_failure
      F t pre c post r s s1 r1 v1 cs1 st s2 r2 v2 cs2 :
  commands t = pre ++ c :: post ->
  is_sole_close (commands t) = false ->
  connected F s = true ->
  begin_ok F = true ->
  loop_from_start F t pre r s = Finished s1 r1 v1 cs1 ->
  dispatch F t c r1 v1 s1 = (st, s2, r2, v2, cs2) ->
  st <> RESPONSE_OK ->
  RunTransaction F t (Some r) s =
  (rolled_back_at F t pre c r s s1 cs2 s2, Some (set_status st r2),
   open_calls s ++ Transaction_Begin true
              :: cs1 ++ Dispatch c :: cs2 ++ [Transaction_Rollback]) /\
  dispatched (open_calls s ++ Transaction_Begin true
                         :: cs1 ++ Dispatch c :: cs2 ++ [Transaction_Rollback])
  = pre ++ [c].
Proof.
  intros Hcmds Hs Hc Hb Hpre Hd Hst.
  pose proof (loop_first_failure F t pre c post r s Hc Hpre Hd Hst) as Hl.
  rewrite <- Hcmds in Hl.
  split.
  - destruct (RunTransaction_path F t r s); congruence.
  - destruct (loop_from_start_Finished _ _ _ _ _ Hc Hpre) as (_ & _ & _ & Hdp & _).
    destruct (dispatch_facts _ _ _ _ _ _ Hd) as (Hin & _).
    rewrite dispatched_app, dispatched_open_calls; simpl.
    rewrite dispatched_app, Hdp; simpl.
    rewrite dispatched_app, (dispatched_inner _ Hin); reflexivity.
Qed.

(** The calls of a batch that was rolled back. *)
Lemma rolled_back_calls s body :
  forallb loop_call body = true ->
  let cs := open_calls s ++ Transaction_Begin true
                       :: body ++ [Transaction_Rollback] in
  existsb is_Rollback cs = true /\
  (forall ok, existsb (is_Commit ok) cs = false) /\
  existsb is_Database_Vacuum cs = false /\
  existsb is_Database_Close cs = false.
Proof.
  intros Hb cs; unfold cs; repeat split; intros;
    rewrite existsb_app; simpl; rewrite existsb_app; simpl.
  - rewrite !orb_true_r; reflexivity.
  - rewrite open_calls_outside by reflexivity.
    rewrite (loop_calls_outside (is_Commit ok) body); [reflexivity| |exact Hb].
    outside.
  - rewrite open_calls_outside by reflexivity.
    rewrite (loop_calls_outside is_Database_Vacuum body); [reflexivity| |exact Hb].
    outside.
  - rewrite open_calls_outside by reflexivity.
    rewrite (loop_calls_outside is_Database_Close body); [reflexivity| |exact Hb].
    outside.
Qed.

(** Looking for a call that neither opening, nor beginning, nor the loop can
    make: only what follows the loop matters. *)
Lemma wrapper_calls (P : Call -> bool) s body tail :
  (forall ok, P (Database_Open ok) = false) ->
  P (Transaction_Begin true) = false ->
  (forall c, loop_call c = true -> P c = false) ->
  forallb loop_call body = true ->
  existsb P (open_calls s ++ Transaction_Begin true :: body ++ tail) =
  existsb P tail.
Proof.
  intros Ho Hb Hl Hbody.
  rewrite existsb_app, (open_calls_outside P s Ho); simpl.
  rewrite Hb, existsb_app, (loop_calls_outside P body Hl Hbody); reflexivity.
Qed.

Lemma filter_none (P : Call -> bool) cs :
  existsb P cs = false -> filter P cs = [].
Proof.
  induction cs as [|c cs IH]; simpl; [reflexivity|].
  intros H; apply orb_false_iff in H as [Hc Hcs].
  rewrite Hc; apply IH; exact Hcs.
Qed.

Lemma CreateRecord_inferred statement row :
  CreateRecord (Some (on_row statement row)) [] =
  {| fields := List.map spec_inferred row |}.
Proof.
  unfold CreateRecord, ColumnCount; simpl; f_equal.
  rewrite <- (map_nth_seq spec_inferred CellNull [] row); simpl.
  apply map_ext; intros i; apply inferred_field_spec.
Qed.

End Lemmas.

(** ** Bootstrap of the meta table *)

Section Bootstrap.
Context {Tables : Type} {engine : Engine Tables}.
Implicit Types (s : LedgerDatabaseImpl (Tables := Tables)).

(** C1, as amended.  When a batch reaches an [INITIALIZE] command on a
    brand-new database (connection not yet initialized, no meta table) and
    [MetaTable::Init] succeeds, the command yields [RESPONSE_OK], the meta
    table now exists and holds the batch's version and compatible version,
    the connection is initialized, and the scalar handed to the caller is 0:
    [table_version] keeps its initial value because the table did not exist
    before [Init] ran. *)
Theorem Initialize_on_brand_new_database F (t : DBTransaction) c r v s :
  type c = INITIALIZE ->
  initialized_ s = false ->
  meta (db_data s) = None ->
  meta_init_ok F = true ->
  exists s',
    dispatch F t c r v s =
    (RESPONSE_OK, s', set_result (value_ (INT_VALUE 0)) r, v,
     [MetaTable_DoesTableExist false; MetaTable_Init true]) /\
    meta (db_data s') =
    Some {| meta_version := version t;
            meta_compatible_version := compatible_version t |} /\
    tables (db_data s') = tables (db_data s) /\
    initialized_ s' = true /\
    scalar (Some (set_result (value_ (INT_VALUE 0)) r)) = Some (INT_VALUE 0).
Proof.
  intros Hc Hi Hm Hok.
  unfold dispatch, Initialize, MetaTable_Init_, DoesTableExist, seed_meta.
  rewrite Hc, Hi, Hm, Hok; simpl.
  eexists; split; [reflexivity|]; simpl.
  repeat split; reflexivity.
Qed.

(** C6.  On an already-initialized connection [Initialize] makes no call that
    looks at or creates the schema: it reads the stored version, reports it,
    and leaves the object, and so the content, exactly as they were.  Calling
    it a second time does the same and reports the same number, whatever
    versions the two calls carry. *)
Theorem Initialize_idempotent F1 F2 v1 cv1 v2 cv2 r s :
  initialized_ s = true ->
  let stored := value_ (INT_VALUE (GetVersionNumber (db_data s))) in
  Initialize F1 v1 cv1 (Some r) s =
  (RESPONSE_OK, s, Some (set_result stored r), [MetaTable_GetVersionNumber]) /\
  Initialize F2 v2 cv2 (Some (set_result stored r)) s =
  (RESPONSE_OK, s, Some (set_result stored r), [MetaTable_GetVersionNumber]) /\
  forallb (fun c => negb (is_schema_call c)) [MetaTable_GetVersionNumber] = true.
Proof.
  intros Hi stored; unfold Initialize; rewrite Hi; simpl.
  repeat split; reflexivity.
Qed.

(** The first [Initialize] of a connection against the second one.  On a
    database that already has its meta table both report the stored version;
    on a brand-new one the first reports 0 and the second the version it was
    seeded with. *)
Lemma Initialize_then_Initialize F1 F2 v1 cv1 v2 cv2 r s :
  initialized_ s = false ->
  meta_init_ok F1 = true ->
  exists s1 r1 cs1 r2,
    Initialize F1 v1 cv1 (Some r) s = (RESPONSE_OK, s1, Some r1, cs1) /\
    Initialize F2 v2 cv2 (Some r1) s1 =
    (RESPONSE_OK, s1, Some r2, [MetaTable_GetVersionNumber]) /\
    match meta (db_data s) with
    | Some m =>
      scalar (Some r1) = Some (INT_VALUE (meta_version m)) /\
      scalar (Some r2) = Some (INT_VALUE (meta_version m)) /\
      db_data s1 = db_data s
    | None =>
      scalar (Some r1) = Some (INT_VALUE 0) /\
      scalar (Some r2) = Some (INT_VALUE v1)
    end.
Proof.
  intros Hi Hok.
  unfold Initialize, MetaTable_Init_, DoesTableExist, seed_meta, GetVersionNumber.
  rewrite Hi, Hok; simpl.
  destruct s as [o [m tb] b i l]; simpl in *.
  destruct m as [m|]; simpl; do 4 eexists; repeat split; reflexivity.
Qed.

End Bootstrap.

(** C1 as written fails on the end-to-end scenario of the specification: a
    lone [INITIALIZE] with version 1 on a new file seeds the meta table with
    version 1 and answers [RESPONSE_OK] with scalar 0, not 1. *)
Lemma brand_new_Initialize_reports_0_not_1 :
  initialized_ Scenario.brand_new = false /\
  meta (db_data Scenario.brand_new) = None /\
  let '(s', p', _) :=
    RunTransaction Scenario.no_faults
                   (Scenario.batch 1 1 [Scenario.cmd INITIALIZE ""])
                   (Some New) Scenario.brand_new in
  option_map meta_version (meta (db_data s')) = Some 1 /\
  reported p' = Some RESPONSE_OK /\
  scalar p' = Some (INT_VALUE 0) /\
  scalar p' <> Some (INT_VALUE 1).
Proof.
  vm_compute; repeat split; try reflexivity; discriminate.
Qed.

Lemma Initialize_on_brand_new_database_witness :
  exists s',
    dispatch Scenario.no_faults (Scenario.batch 1 1 [Scenario.cmd INITIALIZE ""])
             (Scenario.cmd INITIALIZE "") New false Scenario.brand_new =
    (RESPONSE_OK, s', set_result (value_ (INT_VALUE 0)) New, false,
     [MetaTable_DoesTableExist false; MetaTable_Init true]) /\
    meta (db_data s') =
    Some {| meta_version := 1; meta_compatible_version := 1 |} /\
    tables (db_data s') = tables (db_data Scenario.brand_new) /\
    initialized_ s' = true /\
    scalar (Some (set_result (value_ (INT_VALUE 0)) New)) = Some (INT_VALUE 0).
Proof.
  apply (Initialize_on_brand_new_database
           Scenario.no_faults (Scenario.batch 1 1 [Scenario.cmd INITIALIZE ""])
           (Scenario.cmd INITIALIZE "") New false Scenario.brand_new);
    reflexivity.
Defined.

Lemma Initialize_idempotent_witness :
  Initialize Scenario.no_faults 5 5 (Some New) Scenario.in_use =
  (RESPONSE_OK, Scenario.in_use,
   Some (set_result (value_ (INT_VALUE 3)) New), [MetaTable_GetVersionNumber]) /\
  Initialize Scenario.no_faults 9 8
             (Some (set_result (value_ (INT_VALUE 3)) New)) Scenario.in_use =
  (RESPONSE_OK, Scenario.in_use,
   Some (set_result (value_ (INT_VALUE 3)) New), [MetaTable_GetVersionNumber]) /\
  forallb (fun c => negb (is_schema_call c)) [MetaTable_GetVersionNumber] = true.
Proof.
  apply (Initialize_idempotent Scenario.no_faults Scenario.no_faults 5 5 9 8 New
                               Scenario.in_use).
  reflexivity.
Defined.

(** ** Reading rows *)

Section Reading.
Context {Tables : Type} {engine : Engine Tables}.
Implicit Types (s : LedgerDatabaseImpl (Tables := Tables)).

Lemma rows_until_stop_at (o : StepOutcome) found rest :
  (forall row, o <> StepRow row) ->
  rows_until_stop (List.map StepRow found ++ o :: rest) = found.
Proof.
  intros Ho; induction found as [|row found IH]; simpl.
  - destruct o; try reflexivity; exfalso; eapply Ho; reflexivity.
  - rewrite IH; reflexivity.
Qed.

(** C9.  On an initialized connection, with command and response present,
    [Read] answers [RESPONSE_OK] and its records are, in order, one record per
    row the statement yields before [Step] first fails to produce a row; a
    stepping error and the regular end of the rows stop the stream alike.
    Without record bindings each record is the row converted cell by cell:
    integer to Int64, float to Double, text to String, blob to String, null to
    Null. *)
Theorem Read_collects_rows c r s :
  initialized_ s = true ->
  let statement := bind_all (GetUniqueStatement (command c)) (bindings c) in
  let q := stmt_query statement (db_data s) in
  Read (Some c) (Some r) s =
  (RESPONSE_OK, with_data (q_data q) s,
   Some (set_result
           (records
              (List.map (fun row => CreateRecord (Some (on_row statement row))
                                                 (record_bindings c))
                        (rows_until_stop (q_steps q)))) r),
   [Statement_Steps (command c)]) /\
  (forall found rest,
      rows_until_stop (List.map StepRow found ++ StepError :: rest) = found) /\
  (forall found rest,
      rows_until_stop (List.map StepRow found ++ StepDone :: rest) = found) /\
  (forall row,
      CreateRecord (Some (on_row statement row)) [] =
      {| fields := List.map spec_inferred row |}).
Proof.
  intros Hi statement q; unfold Read; rewrite Hi; simpl.
  fold statement; fold q.
  rewrite step_loop_rows; simpl.
  repeat split.
  - intros; apply rows_until_stop_at; discriminate.
  - intros; apply rows_until_stop_at; discriminate.
  - intros; apply CreateRecord_inferred.
Qed.

End Reading.

Lemma Read_collects_rows_witness :
  Read (Some (Scenario.cmd READ "broken")) (Some New) Scenario.in_use =
  (RESPONSE_OK, Scenario.in_use,
   Some (set_result
           (records [ {| fields := [INT64_VALUE 1; STRING_VALUE "a"] |} ]) New),
   [Statement_Steps "broken"]).
Proof.
  exact (proj1 (Read_collects_rows (Scenario.cmd READ "broken") New
                                   Scenario.in_use eq_refl)).
Defined.

(** ** The null response *)

Section NullResponse.
Context {Tables : Type} {engine : Engine Tables}.
Implicit Types (s : LedgerDatabaseImpl (Tables := Tables)).

(** C10.  With a null response [RunTransaction] gives back the object
    untouched and makes no call at all.  [Initialize] answers
    [RESPONSE_ERROR] exactly when its response is null, which never happens
    from the dispatch: no dispatched command yields [RESPONSE_ERROR].  With a
    response, [RunTransaction] always leaves a response behind, whose status
    is either the one found in it or a status other than [RESPONSE_ERROR]. *)
Theorem null_response_returns_at_once F (t : DBTransaction) s :
  RunTransaction F t None s = (s, None, []) /\
  (forall v cv p s0,
      fst (fst (fst (Initialize F v cv p s0))) = RESPONSE_ERROR <-> p = None) /\
  (forall c r v s0,
      fst (fst (fst (fst (dispatch F t c r v s0)))) <> RESPONSE_ERROR) /\
  (forall r,
      exists r',
        snd (fst (RunTransaction F t (Some r) s)) = Some r' /\
        (status r' = status r \/ status r' <> RESPONSE_ERROR)).
Proof.
  split; [reflexivity|]; split; [|split].
  - intros v cv p s0; unfold Initialize, MetaTable_Init_.
    destruct p as [r|]; simpl; [|split; reflexivity].
    destruct (initialized_ s0); simpl; [split; discriminate|].
    destruct (meta_init_ok F); simpl; split; discriminate.
  - intros c r v s0.
    destruct (dispatch F t c r v s0) as [[[[st s1] r1] v1] cs] eqn:E; simpl.
    apply (dispatch_facts _ _ _ _ _ _ E).
  - intros r.
    destruct (RunTransaction_path F t r s) as
        [ | | | s' r' cs Hc Hs Hb Hl | s' r' v cs Hc Hs Hb Hl Hk
          | s' r' cs Hc Hs Hb Hl Hk | s' r' cs Hc Hs Hb Hl Hk ];
      simpl; eexists; (split; [reflexivity|]); simpl;
        try (right; discriminate).
    + right; apply (loop_from_start_Returned _ _ _ _ _ Hc Hl).
    + left; apply (loop_from_start_Finished _ _ _ _ _ Hc Hl).
    + left; apply (loop_from_start_Finished _ _ _ _ _ Hc Hl).
Qed.

End NullResponse.

(** ** Atomicity of a batch *)

Section Atomicity.
Context {Tables : Type} {engine : Engine Tables}.
Implicit Types (s : LedgerDatabaseImpl (Tables := Tables)).


End Atomicity.



(** The rollback restores the content only: after a batch that initialized
    the connection on a new file and then failed, [initialized_] stays set
    although the meta table is gone again, and the next [Initialize] reports 0
    without creating it. *)
Lemma rollback_keeps_initialized_set :
  let '(s1, _, _) :=
    RunTransaction Scenario.no_faults
                   (Scenario.batch 1 1 [Scenario.cmd INITIALIZE "";
                                        Scenario.cmd EXECUTE "fail"])
                   (Some New) Scenario.brand_new in
  initialized_ s1 = true /\
  meta (db_data s1) = None /\
  let '(s2, p2, _) :=
    RunTransaction Scenario.no_faults
                   (Scenario.batch 1 1 [Scenario.cmd INITIALIZE ""])
                   (Some New) s1 in
  reported p2 = Some RESPONSE_OK /\
  scalar p2 = Some (INT_VALUE 0) /\
  meta (db_data s2) = None.
Proof. vm_compute; repeat split; reflexivity. Qed.

(** ** The uninitialized gate *)

Section Gate.
Context {Tables : Type} {engine : Engine Tables}.
Implicit Types (s : LedgerDatabaseImpl (Tables := Tables)).

(** C3.  When the loop reaches a [READ], [EXECUTE], [RUN] or [MIGRATE] command
    while [initialized_] is false, that command yields
    [INITIALIZATION_ERROR] without a call on the database and without
    touching the object; the batch is rolled back, answers
    [INITIALIZATION_ERROR], and the content after the call is the content
    before it. *)
Theorem uninitialized_command_fails
        F (t : DBTransaction) pre c post r s s1 r1 v1 cs1 :
  commands t = pre ++ c :: post ->
  gated (type c) = true ->
  connected F s = true ->
  begin_ok F = true ->
  loop_from_start F t pre r s = Finished s1 r1 v1 cs1 ->
  initialized_ s1 = false ->
  dispatch F t c r1 v1 s1 = (INITIALIZATION_ERROR, s1, r1, v1, []) /\
  exists s' r' cs,
    RunTransaction F t (Some r) s = (s', Some r', cs) /\
    status r' = INITIALIZATION_ERROR /\
    db_data s' = db_data s /\
    dispatched cs = pre ++ [c] /\
    existsb is_Rollback cs = true /\
    (forall ok, existsb (is_Commit ok) cs = false).
Proof.
  intros Hcmds Hg Hc Hb Hpre Hi.
  pose proof (dispatch_gated F t c r1 v1 s1 Hi Hg) as Hd.
  split; [exact Hd|].
  assert (Hs : is_sole_close (commands t) = false).
  { rewrite Hcmds; apply not_sole_close_in_the_middle; left.
    intros E; rewrite E in Hg; discriminate. }
  destruct (RunTransaction_first_failure F t pre c post r s
              Hcmds Hs Hc Hb Hpre Hd) as [Hrun Hdis]; [discriminate|].
  do 3 eexists; split; [exact Hrun|].
  destruct (loop_from_start_Finished _ _ _ _ _ Hc Hpre) as (_ & _ & Hl & _).
  assert (Hbody : forallb loop_call (cs1 ++ [Dispatch c]) = true).
  { rewrite forallb_app, Hl; reflexivity. }
  destruct (rolled_back_calls s _ Hbody) as (H1 & H2 & _).
  rewrite <- app_assoc in H1, H2; simpl in H1, H2.
  rewrite (rolled_back_at_uninitialized F t pre c r s Hc Hpre Hi Hd).
  repeat split; try reflexivity; assumption.
Qed.

End Gate.

Lemma uninitialized_command_fails_witness :
  dispatch Scenario.no_faults
           (Scenario.batch 1 1 [Scenario.cmd VACUUM ""; Scenario.insert_1_a])
           Scenario.insert_1_a New true (opened Scenario.brand_new) =
  (INITIALIZATION_ERROR, opened Scenario.brand_new, New, true, []) /\
  exists s' r' cs,
    RunTransaction Scenario.no_faults
                   (Scenario.batch 1 1 [Scenario.cmd VACUUM ""; Scenario.insert_1_a])
                   (Some New) Scenario.brand_new = (s', Some r', cs) /\
    status r' = INITIALIZATION_ERROR /\
    db_data s' = db_data Scenario.brand_new /\
    dispatched cs = [Scenario.cmd VACUUM ""] ++ [Scenario.insert_1_a] /\
    existsb is_Rollback cs = true /\
    (forall ok, existsb (is_Commit ok) cs = false).
Proof.
  apply (uninitialized_command_fails
           Scenario.no_faults
           (Scenario.batch 1 1 [Scenario.cmd VACUUM ""; Scenario.insert_1_a])
           [Scenario.cmd VACUUM ""] Scenario.insert_1_a [] New Scenario.brand_new
           (s1 := opened Scenario.brand_new) (r1 := New) (v1 := true)
           (cs1 := [Dispatch (Scenario.cmd VACUUM "")]));
    reflexivity.
Defined.

(** ** Close is exclusive *)

Section CloseExclusive.
Context {Tables : Type} {engine : Engine Tables}.
Implicit Types (s : LedgerDatabaseImpl (Tables := Tables)).


End CloseExclusive.



(** ** Failures of the transaction itself *)

Section TransactionErrors.
Context {Tables : Type} {engine : Engine Tables}.
Implicit Types (s : LedgerDatabaseImpl (Tables := Tables)).

(** C8.  For a batch that is not a lone [CLOSE], on a connection that is or
    gets open: when the transaction cannot begin, the response carries
    [TRANSACTION_ERROR], no command enters the dispatch and the content is
    untouched; when every command yields [RESPONSE_OK] (the loop runs to its
    end) but the commit fails, the response carries [TRANSACTION_ERROR] as
    well. *)
Theorem begin_or_commit_failure F (t : DBTransaction) r s :
  connected F s = true ->
  is_sole_close (commands t) = false ->
  (begin_ok F = false ->
   RunTransaction F t (Some r) s =
   (opened s, Some (set_status TRANSACTION_ERROR r),
    open_calls s ++ [Transaction_Begin false]) /\
   dispatched (open_calls s ++ [Transaction_Begin false]) = []) /\
  (begin_ok F = true ->
   commit_ok F = false ->
   forall s1 r1 v1 cs1,
     loop_from_start F t (commands t) r s = Finished s1 r1 v1 cs1 ->
     RunTransaction F t (Some r) s =
     (with_data (db_data s) s1, Some (set_status TRANSACTION_ERROR r1),
      open_calls s ++ Transaction_Begin true :: cs1
                 ++ [Transaction_Commit false]) /\
     dispatched cs1 = commands t).
Proof.
  intros Hc Hs; split.
  - intros Hb; split.
    + destruct (RunTransaction_path F t r s); congruence.
    + rewrite dispatched_app, dispatched_open_calls; reflexivity.
  - intros Hb Hk s1 r1 v1 cs1 Hl; split.
    + destruct (RunTransaction_path F t r s); congruence.
    + apply (loop_from_start_Finished _ _ _ _ _ Hc Hl).
Qed.

End TransactionErrors.

Lemma begin_or_commit_failure_witness :
  RunTransaction Scenario.begin_fails
                 (Scenario.batch 1 1 [Scenario.cmd EXECUTE "first"])
                 (Some New) Scenario.in_use =
  (Scenario.in_use, Some (set_status TRANSACTION_ERROR New),
   [Transaction_Begin false]) /\
  exists s1 cs1,
    RunTransaction Scenario.commit_fails
                   (Scenario.batch 1 1 [Scenario.cmd EXECUTE "first"])
                   (Some New) Scenario.in_use =
    (with_data (db_data Scenario.in_use) s1,
     Some (set_status TRANSACTION_ERROR
                      (set_result (value_ (INT_VALUE 1)) New)),
     Transaction_Begin true :: cs1 ++ [Transaction_Commit false]) /\
    dispatched cs1 = [Scenario.cmd EXECUTE "first"].
Proof.
  split.
  - exact (proj1 (proj1 (begin_or_commit_failure
                           Scenario.begin_fails
                           (Scenario.batch 1 1 [Scenario.cmd EXECUTE "first"])
                           New Scenario.in_use eq_refl eq_refl) eq_refl)).
  - do 2 eexists.
    exact (proj2 (begin_or_commit_failure
                    Scenario.commit_fails
                    (Scenario.batch 1 1 [Scenario.cmd EXECUTE "first"])
                    New Scenario.in_use eq_refl eq_refl) eq_refl eq_refl
                 _ _ _ _ eq_refl).
Defined.

(** ** The stand-alone close *)

Section SoleClose.
Context {Tables : Type} {engine : Engine Tables}.
Implicit Types (s : LedgerDatabaseImpl (Tables := Tables)).

(** C4.  On a connection that is or gets open, [RunTransaction] closes the
    connection if and only if the batch is exactly one [CLOSE] command.  In
    that case it resets the meta table, clears [initialized_], answers
    [RESPONSE_OK] and makes no call on a transaction and no dispatch, leaving
    the content as it was; in every other case the connection is open
    afterwards. *)
Theorem sole_close_closes_the_connection F (t : DBTransaction) r s :
  connected F s = true ->
  (is_sole_close (commands t) = true <->
   exists c, commands t = [c] /\ type c = CLOSE) /\
  (is_sole_close (commands t) = true <->
   existsb is_Database_Close (calls_of (RunTransaction F t (Some r) s)) = true) /\
  (is_sole_close (commands t) = true ->
   RunTransaction F t (Some r) s =
   (close_connection s, Some (set_status RESPONSE_OK r),
    open_calls s ++ [Database_Close; MetaTable_Reset]) /\
   db_is_open (close_connection s) = false /\
   meta_table_db (close_connection s) = false /\
   initialized_ (close_connection s) = false /\
   db_data (close_connection s) = db_data s /\
   existsb is_Transaction_call
           (open_calls s ++ [Database_Close; MetaTable_Reset]) = false /\
   dispatched (open_calls s ++ [Database_Close; MetaTable_Reset]) = []) /\
  (is_sole_close (commands t) = false ->
   db_is_open (object_of (RunTransaction F t (Some r) s)) = true).
Proof.
  intros Hc.
  split; [apply is_sole_close_iff|].
  split; [|split].
  - destruct (RunTransaction_path F t r s) as
        [ Hc' | Hc' Hs | Hc' Hs Hb | s' r' cs Hc' Hs Hb Hl
          | s' r' v cs Hc' Hs Hb Hl Hk
          | s' r' cs Hc' Hs Hb Hl Hk | s' r' cs Hc' Hs Hb Hl Hk ];
      unfold calls_of; simpl; try congruence; rewrite Hs.
    + rewrite existsb_app, orb_true_r; split; reflexivity.
    + rewrite existsb_app, open_calls_outside by reflexivity.
      split; discriminate.
    + destruct (loop_from_start_Returned _ _ _ _ _ Hc Hl)
        as (_ & _ & _ & _ & (body & -> & Hloop) & _).
      destruct (rolled_back_calls s body Hloop) as (_ & _ & _ & R).
      rewrite R; split; discriminate.
    + destruct (loop_from_start_Finished _ _ _ _ _ Hc Hl) as (_ & _ & Hloop & _).
      rewrite wrapper_calls by first [assumption | reflexivity | outside].
      split; discriminate.
    + destruct (loop_from_start_Finished _ _ _ _ _ Hc Hl) as (_ & _ & Hloop & _).
      rewrite wrapper_calls by first [assumption | reflexivity | outside].
      destruct (x_ok _); split; discriminate.
    + destruct (loop_from_start_Finished _ _ _ _ _ Hc Hl) as (_ & _ & Hloop & _).
      rewrite wrapper_calls by first [assumption | reflexivity | outside].
      split; discriminate.
  - intros Hs; split.
    + destruct (RunTransaction_path F t r s); congruence.
    + repeat split; try reflexivity.
      * rewrite existsb_app, open_calls_outside by reflexivity; reflexivity.
      * rewrite dispatched_app, dispatched_open_calls; reflexivity.
  - intros Hs.
    destruct (RunTransaction_path F t r s) as
        [ Hc' | Hc' Hs' | Hc' Hs' Hb | s' r' cs Hc' Hs' Hb Hl
          | s' r' v cs Hc' Hs' Hb Hl Hk
          | s' r' cs Hc' Hs' Hb Hl Hk | s' r' cs Hc' Hs' Hb Hl Hk ];
      unfold object_of; simpl; try congruence.
    + apply (loop_from_start_Returned _ _ _ _ _ Hc Hl).
    + apply (loop_from_start_Finished _ _ _ _ _ Hc Hl).
    + apply (loop_from_start_Finished _ _ _ _ _ Hc Hl).
    + apply (loop_from_start_Finished _ _ _ _ _ Hc Hl).
Qed.

End SoleClose.

Lemma sole_close_closes_the_connection_witness :
  RunTransaction Scenario.no_faults (Scenario.batch 1 1 [Scenario.cmd CLOSE ""])
                 (Some New) Scenario.in_use =
  (close_connection Scenario.in_use, Some (set_status RESPONSE_OK New),
   [Database_Close; MetaTable_Reset]) /\
  db_is_open
    (object_of (RunTransaction Scenario.no_faults
                               (Scenario.batch 1 1 [Scenario.cmd VACUUM ""])
                               (Some New) Scenario.in_use)) = true.
Proof.
  split.
  - exact (proj1 (proj1 (proj2 (proj2 (sole_close_closes_the_connection
                                         Scenario.no_faults
                                         (Scenario.batch 1 1 [Scenario.cmd CLOSE ""])
                                         New Scenario.in_use eq_refl))) eq_refl)).
  - exact (proj2 (proj2 (proj2 (sole_close_closes_the_connection
                                  Scenario.no_faults
                                  (Scenario.batch 1 1 [Scenario.cmd VACUUM ""])
                                  New Scenario.in_use eq_refl))) eq_refl).
Defined.

(** ** The deferred vacuum *)

Section Vacuum.
Context {Tables : Type} {engine : Engine Tables}.
Implicit Types (s : LedgerDatabaseImpl (Tables := Tables)).

(** C7.  A [VACUUM] command in the dispatch only raises the flag and yields
    [RESPONSE_OK].  Over a whole call, the vacuum of the database is run at
    most once; when it is run, the batch held a [VACUUM] command, nothing was
    rolled back, no commit failed, the vacuum comes right after the
    successful commit and is the first one, its failure is followed by the
    log entry and by nothing else, and the status of the response is the one
    the caller put there (so [RESPONSE_OK] for a fresh response) whether the
    vacuum succeeded or not.  After a rollback or a failed commit no vacuum
    is run. *)
Theorem vacuum_runs_once_after_commit F (t : DBTransaction) r s :
  let out := RunTransaction F t (Some r) s in
  let cs := calls_of out in
  (forall c r0 v s0,
      type c = VACUUM -> dispatch F t c r0 v s0 = (RESPONSE_OK, s0, r0, true, [])) /\
  (List.length (filter is_Database_Vacuum cs) <= 1)%nat /\
  (existsb is_Database_Vacuum cs = true ->
   existsb is_VACUUM (commands t) = true /\
   existsb is_Rollback cs = false /\
   existsb (is_Commit false) cs = false /\
   reported (response_of out) = Some (status r) /\
   exists before ok,
     cs = before ++ [Transaction_Commit true; Database_Vacuum ok]
                 ++ (if ok then [] else [LogError "Error executing VACUUM: "]) /\
     existsb is_Database_Vacuum before = false) /\
  (existsb is_Rollback cs = true \/ existsb (is_Commit false) cs = true ->
   existsb is_Database_Vacuum cs = false).
Proof.
  intros out cs; subst out cs.
  split; [intros; apply dispatch_VACUUM; assumption|].
  destruct (RunTransaction_path F t r s) as
      [ Hc | Hc Hs | Hc Hs Hb | s' r' cs Hc Hs Hb Hl | s' r' v cs Hc Hs Hb Hl Hk
        | s' r' cs Hc Hs Hb Hl Hk | s' r' cs Hc Hs Hb Hl Hk ];
    unfold calls_of, response_of; cbn [fst snd].
  6:{ destruct (loop_from_start_Finished _ _ _ _ _ Hc Hl)
        as (Hst & _ & Hloop & _ & Hv & _).
      set (ok := x_ok (db_execute "VACUUM" (db_data s'))).
      set (tail := [Transaction_Commit true; Database_Vacuum ok]
                     ++ (if ok then [] else [LogError "Error executing VACUUM: "])).
      assert (Hbefore : existsb is_Database_Vacuum
                                (open_calls s ++ Transaction_Begin true :: cs) = false).
      { rewrite <- (app_nil_r cs).
        rewrite wrapper_calls by first [assumption | reflexivity | outside].
        reflexivity. }
      assert (Hassoc : open_calls s ++ Transaction_Begin true :: cs ++ tail =
                       (open_calls s ++ Transaction_Begin true :: cs) ++ tail).
      { rewrite <- app_assoc; reflexivity. }
      split; [|split].
      - rewrite Hassoc, filter_app, (filter_none _ _ Hbefore).
        unfold tail; destruct ok; simpl; lia.
      - intros _.
        split; [congruence|].
        split; [rewrite wrapper_calls by first [assumption | reflexivity | outside];
                unfold tail; destruct ok; reflexivity|].
        split; [rewrite wrapper_calls by first [assumption | reflexivity | outside];
                unfold tail; destruct ok; reflexivity|].
        split; [simpl; rewrite Hst; reflexivity|].
        exists (open_calls s ++ Transaction_Begin true :: cs), ok.
        split; [exact Hassoc | exact Hbefore].
      - rewrite !wrapper_calls by first [assumption | reflexivity | outside].
        unfold tail; destruct ok; simpl; intros [H|H]; discriminate H. }
  all: match goal with
       | |- context [filter is_Database_Vacuum ?l] =>
         assert (E : existsb is_Database_Vacuum l = false)
       end.
  all: try (rewrite (filter_none _ _ E), E; simpl;
            split; [lia|]; split; [discriminate | reflexivity]).
  - reflexivity.
  - rewrite existsb_app, open_calls_outside by reflexivity; reflexivity.
  - rewrite existsb_app, open_calls_outside by reflexivity; reflexivity.
  - destruct (loop_from_start_Returned _ _ _ _ _ Hc Hl)
      as (_ & _ & _ & _ & (body & -> & Hloop) & _).
    apply (rolled_back_calls s body Hloop).
  - destruct (loop_from_start_Finished _ _ _ _ _ Hc Hl) as (_ & _ & Hloop & _).
    rewrite wrapper_calls by first [assumption | reflexivity | outside].
    reflexivity.
  - destruct (loop_from_start_Finished _ _ _ _ _ Hc Hl) as (_ & _ & Hloop & _).
    rewrite wrapper_calls by first [assumption | reflexivity | outside].
    reflexivity.
Qed.

End Vacuum.

Lemma vacuum_runs_once_after_commit_witness :
  let out :=
    RunTransaction Scenario.no_faults
                   (Scenario.batch 1 1 [Scenario.cmd INITIALIZE "";
                                        Scenario.cmd VACUUM ""])
                   (Some New) Scenario.brand_new in
  existsb is_Database_Vacuum (calls_of out) = true /\
  (List.length (filter is_Database_Vacuum (calls_of out)) <= 1)%nat /\
  reported (response_of out) = Some RESPONSE_OK /\
  existsb is_Rollback (calls_of out) = false /\
  existsb (is_Commit false) (calls_of out) = false.
Proof.
  intros out.
  destruct (vacuum_runs_once_after_commit
              Scenario.no_faults
              (Scenario.batch 1 1 [Scenario.cmd INITIALIZE "";
                                   Scenario.cmd VACUUM ""])
              New Scenario.brand_new)
    as (_ & Hcount & Hrun & _).
  destruct (Hrun eq_refl) as (_ & Hrb & Hcf & Hst & _).
  repeat split; try assumption; reflexivity.
Defined.

Lemma null_response_returns_at_once_witness :
  RunTransaction Scenario.no_faults
                 (Scenario.batch 1 1 [Scenario.cmd EXECUTE "first"])
                 None Scenario.in_use = (Scenario.in_use, None, []).
Proof.
  exact (proj1 (null_response_returns_at_once
                  Scenario.no_faults
                  (Scenario.batch 1 1 [Scenario.cmd EXECUTE "first"])
                  Scenario.in_use)).
Defined.

(** ** Binding parameters and building records *)

Section Binding.
Context {Tables : Type} {engine : Engine Tables}.
Implicit Types (s : LedgerDatabaseImpl (Tables := Tables)).

Lemma bind_all_unfolded statement bs :
  bind_all statement bs =
  {| stmt_sql := stmt_sql statement;
     stmt_bound := stmt_bound statement
                   ++ List.map (fun b => (index b, bound_of (value b))) bs;
     stmt_row := stmt_row statement |}.
Proof.
  revert statement; induction bs as [|b bs IH]; intros statement.
  - simpl; rewrite app_nil_r; destruct statement; reflexivity.
  - change (bind_all statement (b :: bs))
      with (bind_all match HandleBinding (Some statement) b with
                     | Some st' => st'
                     | None => statement
                     end bs).
    rewrite IH; unfold HandleBinding.
    destruct (value b) eqn:E; simpl; rewrite E, <- app_assoc; reflexivity.
Qed.

(** X1.  [HandleBinding] leaves a null statement alone and otherwise records
    one bind call at the binding's index, of the kind that goes with the tag
    of its value.  Applied over a list, the bindings end up on the statement
    in list order, after those already there, one for one; text and current
    row are untouched. *)
Theorem HandleBinding_binds_by_tag :
  (forall b, HandleBinding None b = None) /\
  (forall statement b,
      HandleBinding (Some statement) b =
      Some (bind statement (index b) (bound_of (value b)))) /\
  (forall statement bs,
      stmt_bound (bind_all statement bs) =
      stmt_bound statement
      ++ List.map (fun b => (index b, bound_of (value b))) bs /\
      stmt_sql (bind_all statement bs) = stmt_sql statement /\
      stmt_row (bind_all statement bs) = stmt_row statement).
Proof.
  split; [reflexivity|]; split.
  - intros statement b; unfold HandleBinding; destruct (value b); reflexivity.
  - intros statement bs; rewrite bind_all_unfolded; repeat split; reflexivity.
Qed.

(** X2.  On an initialized connection [Run] prepares the command text, binds
    every binding of the command in order and runs that statement once.  When
    it succeeds the response gets the change count as an [int] scalar and the
    status is [RESPONSE_OK]; when it fails the status is [COMMAND_ERROR], the
    failure is logged and the response is left as it was.  Either way the
    object now sees the content the engine left. *)
Theorem Run_binds_every_parameter c r s :
  initialized_ s = true ->
  let statement :=
    {| stmt_sql := command c;
       stmt_bound := List.map (fun b => (index b, bound_of (value b))) (bindings c);
       stmt_row := [] |} in
  let o := stmt_run statement (db_data s) in
  Run c r s =
  (if x_ok o then RESPONSE_OK else COMMAND_ERROR,
   with_data (x_data o) s,
   if x_ok o then set_result (value_ (INT_VALUE (x_changes o))) r else r,
   if x_ok o then [Statement_Run (command c) true]
   else [Statement_Run (command c) false; LogError "DB Run error: "]).
Proof.
  intros Hi statement o; unfold Run; rewrite Hi; simpl.
  rewrite bind_all_unfolded; simpl; fold statement; fold o.
  destruct (x_ok o); reflexivity.
Qed.

Lemma explicit_fields_shape statement bs column :
  List.length (explicit_fields statement bs column) = List.length bs /\
  List.map declared_type (explicit_fields statement bs column) = List.map Some bs.
Proof.
  revert column; induction bs as [|b bs IH]; intros column; simpl.
  - split; reflexivity.
  - destruct (IH (S column)) as [Hl Ht]; rewrite Hl, Ht.
    destruct b; split; reflexivity.
Qed.

(** X3.  [CreateRecord] on a null statement gives the empty record.  With
    record bindings the record has exactly one field per binding, each of the
    declared type, however many columns the row has; without, it has one
    field per column of the row. *)
Theorem CreateRecord_shape :
  (forall bs, CreateRecord None bs = {| fields := [] |}) /\
  (forall statement b bs,
      List.length (fields (CreateRecord (Some statement) (b :: bs))) =
      List.length (b :: bs) /\
      List.map declared_type (fields (CreateRecord (Some statement) (b :: bs))) =
      List.map Some (b :: bs)) /\
  (forall statement,
      List.length (fields (CreateRecord (Some statement) [])) =
      ColumnCount statement).
Proof.
  split; [reflexivity|]; split.
  - intros statement b bs; unfold CreateRecord.
    change (0 <? List.length (b :: bs))%nat with true; cbn [fields].
    apply explicit_fields_shape.
  - intros statement; unfold CreateRecord; simpl.
    rewrite length_map, length_seq; reflexivity.
Qed.

End Binding.

Lemma Run_binds_every_parameter_witness :
  Run Scenario.insert_1_a New Scenario.in_use =
  (RESPONSE_OK,
   with_data
     {| meta := Some {| meta_version := 3; meta_compatible_version := 2 |};
        tables := [[CellInteger 1; CellText "a"];
                   [CellFloat 7; CellBlob "b"; CellNull];
                   [CellInteger 1; CellText "a"]] |} Scenario.in_use,
   set_result (value_ (INT_VALUE 1)) New,
   [Statement_Run "INSERT INTO t VALUES(?,?)" true]).
Proof.
  exact (Run_binds_every_parameter Scenario.insert_1_a New Scenario.in_use
                                   eq_refl).
Defined.

(** ** Further shared lemmas *)

Section FurtherLemmas.
Context {Tables : Type} {engine : Engine Tables}.
Implicit Types (self s : LedgerDatabaseImpl (Tables := Tables)).
Implicit Types (r : DBCommandResponse) (cs : list Call) (F : Faults).

(** More of what a single dispatch can and cannot do. *)
Lemma dispatch_more F t c r v s st s' r' v' cs :
  dispatch F t c r v s = (st, s', r', v', cs) ->
  may_yield (type c) st = true /\
  (st <> RESPONSE_OK -> r' = r /\ initialized_ s' = initialized_ s) /\
  (initialized_ s = true -> initialized_ s' = true) /\
  (is_INITIALIZE c = false -> initialized_ s' = initialized_ s) /\
  (db_is_open s = true -> coherent s -> coherent s') /\
  count is_MetaTable_Init cs =
  (if initialized_ s || negb (is_INITIALIZE c) then 0 else 1)%nat /\
  (is_INITIALIZE c = true -> st = RESPONSE_OK -> initialized_ s' = true).
Proof.
  unfold dispatch, is_INITIALIZE, coherent, count, Initialize, Read, Execute,
    Run, Migrate, MetaTable_Init_.
  destruct (type c); simpl;
    destruct (initialized_ s) eqn:Hi; simpl;
    repeat match goal with
           | |- context [if ?b then _ else _] => destruct b eqn:?; simpl
           end;
    intros E; inversion E; subst; clear E; simpl;
    repeat split; intros; simpl in *; try congruence; auto;
    try (match goal with H : true = true -> _ |- _ => apply H; reflexivity end).
Qed.

Lemma count_app (P : Call -> bool) cs1 cs2 :
  count P (cs1 ++ cs2) = (count P cs1 + count P cs2)%nat.
Proof. unfold count; rewrite filter_app, length_app; reflexivity. Qed.

Lemma count_none (P : Call -> bool) cs : existsb P cs = false -> count P cs = 0%nat.
Proof. intros H; unfold count; rewrite (filter_none _ _ H); reflexivity. Qed.

Lemma exit_after_calls cs (e : LoopExit (Tables := Tables)) :
  exit_object (after_calls cs e) = exit_object e /\
  exit_calls (after_calls cs e) = cs ++ exit_calls e.
Proof. destruct e; split; reflexivity. Qed.

(** What the loop keeps, whichever way it is left. *)
Lemma run_commands_more F t k cmds r v s :
  let e := run_commands F t k cmds r v s in
  (initialized_ s = true -> initialized_ (exit_object e) = true) /\
  (existsb is_INITIALIZE cmds = false ->
   initialized_ (exit_object e) = initialized_ s) /\
  (db_is_open s = true -> coherent s -> coherent (exit_object e)) /\
  (count is_MetaTable_Init (exit_calls e) <=
   if initialized_ s then 0 else 1)%nat.
Proof.
  revert k r v s; induction cmds as [|c rest IH]; intros k r v s; simpl.
  - split; [auto|]; split; [auto|]; split; [auto|].
    destruct (initialized_ s); unfold count; simpl; lia.
  - destruct (dispatch F t c r v s) as [[[[st s2] r2] v2] cs2] eqn:Ed.
    destruct (dispatch_facts _ _ _ _ _ _ Ed) as (_ & _ & Hop & _).
    destruct (dispatch_more _ _ _ _ _ _ Ed)
      as (_ & Hfail & Hmono & Hsame & Hcoh & Hcount & Hset).
    destruct (Status_eqb st RESPONSE_OK) eqn:Eq; simpl.
    + apply Status_eqb_eq in Eq.
      destruct (IH (after_dispatch k c s cs2) r2 v2 s2) as (I1 & I2 & I3 & I4).
      destruct (exit_after_calls
                  (Dispatch c :: cs2)
                  (run_commands F t (after_dispatch k c s cs2) rest r2 v2 s2))
        as [Eo Ec].
      rewrite Eo, Ec.
      split; [auto|]; split; [|split].
      * intros H; apply orb_false_iff in H as [H1 H2].
        rewrite (I2 H2); auto.
      * intros Ho Hc; apply I3; [congruence | auto].
      * change (Dispatch c :: cs2) with ([Dispatch c] ++ cs2).
        rewrite !count_app, Hcount.
        change (count is_MetaTable_Init [Dispatch c]) with 0%nat.
        destruct (initialized_ s) eqn:Hi; simpl.
        { rewrite (Hmono eq_refl) in I4; simpl in *; lia. }
        destruct (is_INITIALIZE c) eqn:Hc; simpl.
        { rewrite (Hset eq_refl Eq) in I4; lia. }
        rewrite (Hsame eq_refl) in I4; rewrite ?Hi in I4; lia.
    + assert (Hne : st <> RESPONSE_OK).
      { intros ->; discriminate. }
      destruct (Hfail Hne) as [_ Hinit].
      assert (Hflags :
                forall k', initialized_ (Rollback k' s2) = initialized_ s2 /\
                           (coherent s2 -> coherent (Rollback k' s2))).
      { intros k'; unfold Rollback, coherent; destruct (undo_to k'); simpl;
          split; auto. }
      destruct (Hflags (after_dispatch k c s cs2)) as [Hri Hrc].
      split; [intros H; rewrite Hri, Hinit; exact H|].
      split; [intros _; rewrite Hri; exact Hinit|]; split.
      * intros Ho Hc; apply Hrc, (Hcoh Ho Hc).
      * change (Dispatch c :: cs2 ++ [Transaction_Rollback])
          with ([Dispatch c] ++ cs2 ++ [Transaction_Rollback]).
        rewrite !count_app, Hcount.
        change (count is_MetaTable_Init [Dispatch c]) with 0%nat.
        change (count is_MetaTable_Init [Transaction_Rollback]) with 0%nat.
        destruct (initialized_ s || negb (is_INITIALIZE c)) eqn:Hb;
          destruct (initialized_ s); simpl in *; try lia; discriminate.
Qed.

End FurtherLemmas.

(** ** The connection and the calls around the loop *)

Section AroundTheLoop.
Context {Tables : Type} {engine : Engine Tables}.
Implicit Types (s : LedgerDatabaseImpl (Tables := Tables)).

Lemma count_cons (P : Call -> bool) c cs :
  count P (c :: cs) = ((if P c then 1 else 0) + count P cs)%nat.
Proof. unfold count; simpl; destruct (P c); reflexivity. Qed.

Lemma count_loop_calls (P : Call -> bool) cs :
  (forall c, loop_call c = true -> P c = false) ->
  forallb loop_call cs = true -> count P cs = 0%nat.
Proof. intros H Hl; apply count_none, (loop_calls_outside P cs H Hl). Qed.

Lemma count_open_calls (P : Call -> bool) s :
  (forall ok, P (Database_Open ok) = false) -> count P (open_calls s) = 0%nat.
Proof. intros H; apply count_none, open_calls_outside, H. Qed.

(** The loop as [RunTransaction] starts it keeps what [run_commands] keeps. *)
Lemma loop_from_start_more F t cmds r s :
  connected F s = true ->
  let e := loop_from_start F t cmds r s in
  (initialized_ s = true -> initialized_ (exit_object e) = true) /\
  (existsb is_INITIALIZE cmds = false ->
   initialized_ (exit_object e) = initialized_ s) /\
  (coherent s -> coherent (exit_object e)) /\
  (count is_MetaTable_Init (exit_calls e) <= 1)%nat.
Proof.
  intros Hc e; unfold e; rewrite (loop_from_start_connected _ _ _ _ _ Hc).
  destruct (run_commands_more F t (begun s) cmds r false
                              (opened s)) as (M1 & M2 & M3 & M4).
  split; [exact M1|]; split; [exact M2|]; split.
  - intros H; apply M3; [reflexivity|].
    unfold coherent in *; simpl; intros Hi; destruct (H Hi) as (_ & H2 & H3).
    repeat split; assumption.
  - simpl in M4; destruct (initialized_ s); lia.
Qed.

(** X4.  The connection is opened on demand and at most once: [Open] is
    called exactly when the connection is not open.  When it fails,
    nothing else happens, whatever the batch holds, a lone [CLOSE]
    included: the status is [INITIALIZATION_ERROR] and the object is left as
    it was.  Otherwise the connection is open after the call unless the batch
    was a lone [CLOSE]. *)
Theorem connection_is_opened_on_demand F (t : DBTransaction) r s :
  let out := RunTransaction F t (Some r) s in
  count is_Database_Open (calls_of out) = (if db_is_open s then 0 else 1)%nat /\
  (connected F s = false ->
   out = (s, Some (set_status INITIALIZATION_ERROR r), [Database_Open false])) /\
  (connected F s = true ->
   db_is_open (object_of out) = negb (is_sole_close (commands t))).
Proof.
  intros out; unfold out; clear out.
  assert (Hopen : count is_Database_Open (open_calls s) =
                  (if db_is_open s then 0 else 1)%nat).
  { unfold open_calls; destruct (db_is_open s); reflexivity. }
  destruct (RunTransaction_path F t r s) as
      [ Hc | Hc Hs | Hc Hs Hb | s' r' cs Hc Hs Hb Hl | s' r' v cs Hc Hs Hb Hl Hk
        | s' r' cs Hc Hs Hb Hl Hk | s' r' cs Hc Hs Hb Hl Hk ];
    unfold calls_of, object_of; cbn [fst snd]; rewrite ?Hc, ?Hs;
      (split; [|split; [intros; try discriminate; reflexivity
                       |intros; try discriminate]]).
  - unfold connected in Hc; apply orb_false_iff in Hc as [-> _]; reflexivity.
  - rewrite count_app, Hopen; unfold count; simpl; lia.
  - reflexivity.
  - rewrite count_app, Hopen; unfold count; simpl; lia.
  - reflexivity.
  - destruct (loop_from_start_Returned _ _ _ _ _ Hc Hl)
      as (_ & _ & _ & _ & (body & -> & Hloop) & _).
    rewrite count_app, count_cons, count_app, Hopen.
    rewrite (count_loop_calls is_Database_Open body) by (try assumption; outside).
    unfold count; simpl; lia.
  - apply (loop_from_start_Returned _ _ _ _ _ Hc Hl).
  - destruct (loop_from_start_Finished _ _ _ _ _ Hc Hl) as (_ & _ & Hloop & _).
    rewrite count_app, count_cons, count_app, Hopen.
    rewrite (count_loop_calls is_Database_Open cs) by (try assumption; outside).
    unfold count; simpl; lia.
  - apply (loop_from_start_Finished _ _ _ _ _ Hc Hl).
  - destruct (loop_from_start_Finished _ _ _ _ _ Hc Hl) as (_ & _ & Hloop & _).
    rewrite count_app, count_cons, count_app, Hopen.
    rewrite (count_loop_calls is_Database_Open cs) by (try assumption; outside).
    unfold count; destruct (x_ok _); simpl; lia.
  - apply (loop_from_start_Finished _ _ _ _ _ Hc Hl).
  - destruct (loop_from_start_Finished _ _ _ _ _ Hc Hl) as (_ & _ & Hloop & _).
    rewrite count_app, count_cons, count_app, Hopen.
    rewrite (count_loop_calls is_Database_Open cs) by (try assumption; outside).
    unfold count; simpl; lia.
  - apply (loop_from_start_Finished _ _ _ _ _ Hc Hl).
Qed.

Ltac wrapper_count P :=
  rewrite (count_app P), (count_cons P), (count_app P),
    (count_open_calls P) by reflexivity;
  rewrite (count_loop_calls P) by (try assumption; outside).

(** X5.  Whatever the batch, one call begins at most one transaction, and a
    transaction that began is ended exactly once, by a commit or by a
    rollback, never by both and never left open; without a successful begin
    there is neither.  [MetaTable::Init] is called at most once, however
    many [INITIALIZE] commands the batch holds. *)
Theorem transaction_is_ended_exactly_once F (t : DBTransaction) p s :
  let cs := calls_of (RunTransaction F t p s) in
  (count is_Begin cs <= 1)%nat /\
  (count is_Rollback cs + count is_any_Commit cs = count is_begun cs)%nat /\
  (count is_MetaTable_Init cs <= 1)%nat.
Proof.
  intros cs; unfold cs; clear cs.
  destruct p as [r|]; [|unfold count; simpl; lia].
  destruct (RunTransaction_path F t r s) as
      [ Hc | Hc Hs | Hc Hs Hb | s' r' cs Hc Hs Hb Hl | s' r' v cs Hc Hs Hb Hl Hk
        | s' r' cs Hc Hs Hb Hl Hk | s' r' cs Hc Hs Hb Hl Hk ];
    unfold calls_of; cbn [snd].
  - unfold count; simpl; lia.
  - rewrite !count_app, !count_open_calls by reflexivity; unfold count; simpl; lia.
  - rewrite !count_app, !count_open_calls by reflexivity; unfold count; simpl; lia.
  - destruct (loop_from_start_more F t (commands t) r s Hc) as (_ & _ & _ & M).
    rewrite Hl in M; simpl in M.
    destruct (loop_from_start_Returned _ _ _ _ _ Hc Hl)
      as (_ & _ & _ & _ & (body & -> & Hloop) & _).
    rewrite count_app in M.
    wrapper_count is_Begin. wrapper_count is_Rollback.
    wrapper_count is_any_Commit. wrapper_count is_begun.
    rewrite (count_app is_MetaTable_Init), (count_cons is_MetaTable_Init),
      (count_open_calls is_MetaTable_Init) by reflexivity.
    rewrite (count_app is_MetaTable_Init).
    unfold count in *; simpl in *; lia.
  - destruct (loop_from_start_more F t (commands t) r s Hc) as (_ & _ & _ & M).
    rewrite Hl in M; simpl in M.
    destruct (loop_from_start_Finished _ _ _ _ _ Hc Hl) as (_ & _ & Hloop & _).
    wrapper_count is_Begin. wrapper_count is_Rollback.
    wrapper_count is_any_Commit. wrapper_count is_begun.
    rewrite (count_app is_MetaTable_Init), (count_cons is_MetaTable_Init),
      (count_open_calls is_MetaTable_Init) by reflexivity.
    rewrite (count_app is_MetaTable_Init).
    unfold count in *; simpl in *; lia.
  - destruct (loop_from_start_more F t (commands t) r s Hc) as (_ & _ & _ & M).
    rewrite Hl in M; simpl in M.
    destruct (loop_from_start_Finished _ _ _ _ _ Hc Hl) as (_ & _ & Hloop & _).
    wrapper_count is_Begin. wrapper_count is_Rollback.
    wrapper_count is_any_Commit. wrapper_count is_begun.
    rewrite (count_app is_MetaTable_Init), (count_cons is_MetaTable_Init),
      (count_open_calls is_MetaTable_Init) by reflexivity.
    rewrite (count_app is_MetaTable_Init).
    unfold count in *; destruct (x_ok _); simpl in *; lia.
  - destruct (loop_from_start_more F t (commands t) r s Hc) as (_ & _ & _ & M).
    rewrite Hl in M; simpl in M.
    destruct (loop_from_start_Finished _ _ _ _ _ Hc Hl) as (_ & _ & Hloop & _).
    wrapper_count is_Begin. wrapper_count is_Rollback.
    wrapper_count is_any_Commit. wrapper_count is_begun.
    rewrite (count_app is_MetaTable_Init), (count_cons is_MetaTable_Init),
      (count_open_calls is_MetaTable_Init) by reflexivity.
    rewrite (count_app is_MetaTable_Init).
    unfold count in *; simpl in *; lia.
Qed.

End AroundTheLoop.

(** ** What a caller can rely on *)

Section Contract.
Context {Tables : Type} {engine : Engine Tables}.
Implicit Types (s : LedgerDatabaseImpl (Tables := Tables)).

Ltac loop_facts F t r s Hc Hl :=
  let M := fresh "M" in
  pose proof (loop_from_start_more F t (commands t) r s Hc) as M;
  rewrite Hl in M; cbn [exit_object exit_calls] in M;
  first [ pose proof (loop_from_start_Returned _ _ _ _ _ Hc Hl)
        | pose proof (loop_from_start_Finished _ _ _ _ _ Hc Hl) ].

(** X6.  The vacuum of the database is run exactly once when the batch holds
    at least one [VACUUM] command and its transaction was committed, and not
    at all otherwise: a requested vacuum is never skipped after a successful
    commit, and several [VACUUM] commands still give a single vacuum. *)
Theorem vacuum_runs_iff_requested_and_committed F (t : DBTransaction) r s :
  let cs := calls_of (RunTransaction F t (Some r) s) in
  count is_Database_Vacuum cs =
  (if existsb is_VACUUM (commands t) && existsb (is_Commit true) cs
   then 1 else 0)%nat.
Proof.
  intros cs; unfold cs; clear cs.
  destruct (RunTransaction_path F t r s) as
      [ Hc | Hc Hs | Hc Hs Hb | s' r' cs Hc Hs Hb Hl | s' r' v cs Hc Hs Hb Hl Hk
        | s' r' cs Hc Hs Hb Hl Hk | s' r' cs Hc Hs Hb Hl Hk ];
    unfold calls_of; cbn [snd].
  - rewrite andb_false_r; reflexivity.
  - apply is_sole_close_iff in Hs as (c & -> & Hty).
    unfold is_VACUUM; simpl; rewrite Hty; simpl.
    rewrite count_app, count_open_calls by reflexivity; reflexivity.
  - rewrite existsb_app, open_calls_outside by reflexivity; simpl.
    rewrite andb_false_r, count_app, count_open_calls by reflexivity.
    reflexivity.
  - destruct (loop_from_start_Returned _ _ _ _ _ Hc Hl)
      as (_ & _ & _ & _ & (body & -> & Hloop) & _).
    destruct (rolled_back_calls s body Hloop) as (_ & R2 & R3 & _).
    rewrite (R2 true), andb_false_r; apply count_none, R3.
  - destruct (loop_from_start_Finished _ _ _ _ _ Hc Hl) as (_ & _ & Hloop & _).
    rewrite wrapper_calls by first [assumption | reflexivity | outside].
    simpl; rewrite andb_false_r.
    apply count_none.
    rewrite wrapper_calls by first [assumption | reflexivity | outside].
    reflexivity.
  - destruct (loop_from_start_Finished _ _ _ _ _ Hc Hl)
      as (_ & _ & Hloop & _ & Hv & _).
    rewrite <- Hv.
    rewrite wrapper_calls by first [assumption | reflexivity | outside].
    simpl.
    rewrite (count_app is_Database_Vacuum), (count_cons is_Database_Vacuum),
      (count_app is_Database_Vacuum), (count_open_calls is_Database_Vacuum)
      by reflexivity.
    rewrite (count_loop_calls is_Database_Vacuum) by (try assumption; outside).
    unfold count; destruct (x_ok _); reflexivity.
  - destruct (loop_from_start_Finished _ _ _ _ _ Hc Hl)
      as (_ & _ & Hloop & _ & Hv & _).
    rewrite <- Hv; simpl.
    apply count_none.
    rewrite wrapper_calls by first [assumption | reflexivity | outside].
    reflexivity.
Qed.


(** The status a rolled-back batch ends with is one a command can fail
    with. *)
Lemma run_commands_Returned_status F t k cmds r v s s' r' cs :
  run_commands F t k cmds r v s = Returned s' r' cs ->
  status r' = INITIALIZATION_ERROR \/ status r' = COMMAND_ERROR.
Proof.
  revert k r v s cs; induction cmds as [|c rest IH]; intros k r v s cs Hl;
    [discriminate|].
  simpl in Hl.
  destruct (dispatch F t c r v s) as [[[[st s2] r2] v2] cs2] eqn:Ed.
  destruct (dispatch_more _ _ _ _ _ _ Ed) as (Hy & _).
  destruct (Status_eqb st RESPONSE_OK) eqn:Eq; simpl in Hl.
  - destruct (run_commands F t (after_dispatch k c s cs2) rest r2 v2 s2)
      as [s3 r3 cs3|] eqn:E; simpl in Hl; [|discriminate].
    inversion Hl; subst; apply (IH _ _ _ _ _ E).
  - inversion Hl; subst; simpl.
    destruct (type c), st; simpl in *; try discriminate; auto.
Qed.

(** X8.  No command yields [TRANSACTION_ERROR]: each command type comes back
    from the [switch] with one of its own statuses only.  So, for a response
    that did not already carry it, [TRANSACTION_ERROR] after the call means
    exactly that the begin or the commit failed. *)
Theorem TRANSACTION_ERROR_is_begin_or_commit F (t : DBTransaction) r s :
  status r <> TRANSACTION_ERROR ->
  let out := RunTransaction F t (Some r) s in
  (forall c r0 v s0,
      may_yield (type c) (fst (fst (fst (fst (dispatch F t c r0 v s0))))) = true) /\
  (reported (response_of out) = Some TRANSACTION_ERROR <->
   existsb is_failed_Begin_or_Commit (calls_of out) = true).
Proof.
  intros Hr out; unfold out; clear out; split.
  { intros c r0 v s0.
    destruct (dispatch F t c r0 v s0) as [[[[st s1] r1] v1] cs] eqn:E.
    apply (dispatch_more _ _ _ _ _ _ E). }
  destruct (RunTransaction_path F t r s) as
      [ Hc | Hc Hs | Hc Hs Hb | s' r' cs Hc Hs Hb Hl | s' r' v cs Hc Hs Hb Hl Hk
        | s' r' cs Hc Hs Hb Hl Hk | s' r' cs Hc Hs Hb Hl Hk ];
    unfold calls_of, response_of, reported; cbn [fst snd option_map].
  - simpl; split; discriminate.
  - rewrite existsb_app, open_calls_outside by reflexivity.
    simpl; split; discriminate.
  - rewrite existsb_app, open_calls_outside by reflexivity.
    simpl; split; reflexivity.
  - destruct (loop_from_start_Returned _ _ _ _ _ Hc Hl)
      as (_ & _ & _ & _ & (body & Hbody & Hloop) & (pre & c & post & Hcmds & _)).
    assert (Hst : status r' <> TRANSACTION_ERROR).
    { rewrite (loop_from_start_connected _ _ _ _ _ Hc) in Hl.
      destruct (run_commands_Returned_status _ _ _ _ _ _ _ Hl) as [E|E];
        rewrite E; discriminate. }
    subst cs.
    rewrite wrapper_calls by first [assumption | reflexivity | outside].
    simpl; split; [intros H; inversion H; contradiction | discriminate].
  - destruct (loop_from_start_Finished _ _ _ _ _ Hc Hl) as (_ & _ & Hloop & _).
    rewrite wrapper_calls by first [assumption | reflexivity | outside].
    simpl; split; reflexivity.
  - destruct (loop_from_start_Finished _ _ _ _ _ Hc Hl) as (Hst & _ & Hloop & _).
    rewrite wrapper_calls by first [assumption | reflexivity | outside].
    destruct (x_ok _); simpl; (split; [intros H; inversion H; congruence
                                      | discriminate]).
  - destruct (loop_from_start_Finished _ _ _ _ _ Hc Hl) as (Hst & _ & Hloop & _).
    rewrite wrapper_calls by first [assumption | reflexivity | outside].
    simpl; split; [intros H; inversion H; congruence | discriminate].
Qed.

End Contract.

(** ** The object across calls *)

Section Lifecycle.
Context {Tables : Type} {engine : Engine Tables}.
Implicit Types (s : LedgerDatabaseImpl (Tables := Tables)).

Lemma coherent_with_data d s : coherent s -> coherent (with_data d s).
Proof. unfold coherent; simpl; auto. Qed.

Lemma coherent_opened s : coherent s -> coherent (opened s).
Proof.
  unfold coherent; simpl; intros H Hi; destruct (H Hi) as (_ & H2 & H3).
  repeat split; assumption.
Qed.

(** X9.  Every call keeps the object coherent: whenever [initialized_] is
    set, the connection is open, the meta table holds it and the
    memory-pressure listener is registered.  An object that starts closed and
    uninitialized is coherent, so this holds throughout its life. *)
Theorem RunTransaction_keeps_the_object_coherent F (t : DBTransaction) p s :
  coherent s -> coherent (object_of (RunTransaction F t p s)).
Proof.
  intros H; destruct p as [r|]; [|exact H].
  destruct (RunTransaction_path F t r s) as
      [ Hc | Hc Hs | Hc Hs Hb | s' r' cs Hc Hs Hb Hl | s' r' v cs Hc Hs Hb Hl Hk
        | s' r' cs Hc Hs Hb Hl Hk | s' r' cs Hc Hs Hb Hl Hk ];
    unfold object_of; cbn [fst snd];
      try (destruct (loop_from_start_more F t (commands t) r s Hc)
            as (_ & _ & M & _);
           rewrite Hl in M; cbn [exit_object] in M; specialize (M H)).
  - exact H.
  - unfold coherent; simpl; discriminate.
  - apply coherent_opened, H.
  - exact M.
  - apply coherent_with_data, M.
  - apply coherent_with_data, M.
  - exact M.
Qed.

(** X10.  [initialized_] changes only through an [INITIALIZE] command or a
    lone [CLOSE]: a batch that is not a lone [CLOSE] never clears it, and one
    that moreover holds no [INITIALIZE] leaves it as it was, whether the
    batch succeeds or fails. *)
Theorem initialized_changes_only_by_INITIALIZE_or_CLOSE
        F (t : DBTransaction) p s :
  is_sole_close (commands t) = false ->
  let s' := object_of (RunTransaction F t p s) in
  (initialized_ s = true -> initialized_ s' = true) /\
  (existsb is_INITIALIZE (commands t) = false ->
   initialized_ s' = initialized_ s).
Proof.
  intros Hns s'; unfold s'; clear s'.
  destruct p as [r|]; [|split; auto].
  destruct (RunTransaction_path F t r s) as
      [ Hc | Hc Hs | Hc Hs Hb | s' r' cs Hc Hs Hb Hl | s' r' v cs Hc Hs Hb Hl Hk
        | s' r' cs Hc Hs Hb Hl Hk | s' r' cs Hc Hs Hb Hl Hk ];
    unfold object_of; cbn [fst snd]; try congruence;
      try (destruct (loop_from_start_more F t (commands t) r s Hc)
            as (M1 & M2 & _);
           rewrite Hl in M1, M2; cbn [exit_object] in M1, M2);
      split; auto.
Qed.

End Lifecycle.

Lemma RunTransaction_keeps_the_object_coherent_witness :
  coherent
    (object_of
       (RunTransaction Scenario.no_faults
                       (Scenario.batch 1 1 [Scenario.cmd INITIALIZE "";
                                            Scenario.cmd EXECUTE "fail"])
                       (Some New) Scenario.brand_new)).
Proof.
  apply (RunTransaction_keeps_the_object_coherent
           Scenario.no_faults
           (Scenario.batch 1 1 [Scenario.cmd INITIALIZE "";
                                Scenario.cmd EXECUTE "fail"])
           (Some New) (s := Scenario.brand_new)).
  unfold coherent; simpl; discriminate.
Defined.

Lemma initialized_changes_only_by_INITIALIZE_or_CLOSE_witness :
  initialized_
    (object_of
       (RunTransaction Scenario.no_faults
                       (Scenario.batch 1 1 [Scenario.cmd EXECUTE "fail"])
                       (Some New) Scenario.in_use)) =
  initialized_ Scenario.in_use.
Proof.
  exact (proj2 (initialized_changes_only_by_INITIALIZE_or_CLOSE
                  Scenario.no_faults
                  (Scenario.batch 1 1 [Scenario.cmd EXECUTE "fail"])
                  (Some New) Scenario.in_use eq_refl) eq_refl).
Defined.

Lemma TRANSACTION_ERROR_is_begin_or_commit_witness :
  reported
    (response_of
       (RunTransaction Scenario.commit_fails
                       (Scenario.batch 1 1 [Scenario.cmd EXECUTE "first"])
                       (Some New) Scenario.in_use)) = Some TRANSACTION_ERROR <->
  existsb is_failed_Begin_or_Commit
          (calls_of
             (RunTransaction Scenario.commit_fails
                             (Scenario.batch 1 1 [Scenario.cmd EXECUTE "first"])
                             (Some New) Scenario.in_use)) = true.
Proof.
  apply (TRANSACTION_ERROR_is_begin_or_commit
           Scenario.commit_fails
           (Scenario.batch 1 1 [Scenario.cmd EXECUTE "first"])
           New Scenario.in_use).
  discriminate.
Defined.


(** ** Versions *)

Section Versions.
Context {Tables : Type} {engine : Engine Tables}.
Implicit Types (s : LedgerDatabaseImpl (Tables := Tables)).

(** X11.  When a batch reaches an [INITIALIZE] command on a connection that
    is not yet initialized, over a database that already has its meta table,
    and [MetaTable::Init] succeeds, the command reports the stored version,
    not the one the batch carries, and leaves the content as it is; the
    connection is initialized afterwards. *)
Theorem Initialize_on_existing_database F (t : DBTransaction) c r v s m :
  type c = INITIALIZE ->
  initialized_ s = false ->
  meta (db_data s) = Some m ->
  meta_init_ok F = true ->
  exists s',
    dispatch F t c r v s =
    (RESPONSE_OK, s', set_result (value_ (INT_VALUE (meta_version m))) r, v,
     [MetaTable_DoesTableExist true; MetaTable_Init true;
      MetaTable_GetVersionNumber]) /\
    db_data s' = db_data s /\
    initialized_ s' = true /\
    meta_table_db s' = true /\
    memory_pressure_listener_ s' = true /\
    db_is_open s' = db_is_open s.
Proof.
  intros Hc Hi Hm Hok.
  unfold dispatch, Initialize, MetaTable_Init_, DoesTableExist, seed_meta,
    GetVersionNumber.
  rewrite Hc, Hi, Hm, Hok; simpl; rewrite Hm.
  eexists; split; [reflexivity|]; simpl; repeat split; reflexivity.
Qed.

(** X12.  When a batch reaches an [INITIALIZE] command on a connection that
    is not yet initialized and [MetaTable::Init] fails, the batch ends there
    with [INITIALIZATION_ERROR]: it is rolled back, the content is what it
    was, the connection is still not initialized, and the response keeps the
    result it had before the command. *)
Theorem Initialize_failure_ends_the_batch
        F (t : DBTransaction) pre c post r s s1 r1 v1 cs1 :
  commands t = pre ++ c :: post ->
  type c = INITIALIZE ->
  connected F s = true ->
  begin_ok F = true ->
  loop_from_start F t pre r s = Finished s1 r1 v1 cs1 ->
  initialized_ s1 = false ->
  meta_init_ok F = false ->
  exists s' cs,
    RunTransaction F t (Some r) s =
    (s', Some (set_status INITIALIZATION_ERROR r1), cs) /\
    db_data s' = db_data s /\
    initialized_ s' = false /\
    dispatched cs = pre ++ [c] /\
    existsb is_Rollback cs = true.
Proof.
  intros Hcmds Hc Hcon Hb Hpre Hi Hok.
  assert (Hs : is_sole_close (commands t) = false).
  { rewrite Hcmds; apply not_sole_close_in_the_middle; left.
    rewrite Hc; discriminate. }
  assert (Hne : INITIALIZATION_ERROR <> RESPONSE_OK) by discriminate.
  destruct (dispatch F t c r1 v1 s1) as [[[[st s2] r2] v2] cs2] eqn:Ed.
  assert (E : st = INITIALIZATION_ERROR /\ r2 = r1 /\ initialized_ s2 = false).
  { revert Ed; unfold dispatch, Initialize, MetaTable_Init_.
    rewrite Hc, Hi, Hok; simpl; intros E; inversion E; subst; auto. }
  destruct E as (-> & -> & Hi2).
  destruct (RunTransaction_first_failure F t pre c post r s
              Hcmds Hs Hcon Hb Hpre Ed Hne) as [Hrun Hdis].
  rewrite (rolled_back_at_uninitialized F t pre c r s Hcon Hpre Hi Ed) in Hrun.
  do 2 eexists; split; [exact Hrun|].
  split; [reflexivity|]; split; [exact Hi2|]; split; [exact Hdis|].
  destruct (loop_from_start_Finished _ _ _ _ _ Hcon Hpre) as (_ & _ & Hl & _).
  destruct (dispatch_facts _ _ _ _ _ _ Ed) as (Hin & _).
  change (cs1 ++ Dispatch c :: cs2 ++ [Transaction_Rollback])
    with (cs1 ++ (Dispatch c :: cs2) ++ [Transaction_Rollback]).
  rewrite app_assoc; apply rolled_back_calls.
  rewrite forallb_app, Hl; simpl; apply inner_is_loop_call; exact Hin.
Qed.

(** X13.  Versions written by [MIGRATE] survive closing and reopening.  On an
    initialized connection over a database with a meta table, a committed
    [MIGRATE] batch stores the batch's version and compatible version; after
    a lone [CLOSE], an [INITIALIZE] batch reopens the connection, reports
    the migrated version, whatever version it carries itself, and changes
    nothing. *)
Theorem Migrate_then_reopen_reports_the_version
        F (tm tc ti : DBTransaction) cm cc ci r1 r2 r3 s m0 :
  commands tm = [cm] -> type cm = MIGRATE ->
  commands tc = [cc] -> type cc = CLOSE ->
  commands ti = [ci] -> type ci = INITIALIZE ->
  open_ok F = true -> begin_ok F = true ->
  meta_init_ok F = true -> commit_ok F = true ->
  db_is_open s = true ->
  initialized_ s = true ->
  meta (db_data s) = Some m0 ->
  let s1 := object_of (RunTransaction F tm (Some r1) s) in
  let s2 := object_of (RunTransaction F tc (Some r2) s1) in
  let out := RunTransaction F ti (Some r3) s2 in
  meta (db_data s1) =
  Some {| meta_version := version tm;
          meta_compatible_version := compatible_version tm |} /\
  tables (db_data s1) = tables (db_data s) /\
  db_is_open s2 = false /\
  initialized_ s2 = false /\
  response_of out =
  Some (set_result (value_ (INT_VALUE (version tm))) r3) /\
  db_data (object_of out) = db_data s1 /\
  initialized_ (object_of out) = true.
Proof.
  intros Hm Htm Hc Htc Hi Hti Ho Hb Hmi Hk Hopen Hinit Hmeta.
  destruct F as [fo fb fm fk]; simpl in *; subst.
  destruct tm as [vm cvm cmds_m], tc as [vc cvc cmds_c], ti as [vi cvi cmds_i].
  destruct s as [o [m tb] mt i l]; simpl in *; subst.
  unfold RunTransaction, ensure_open, is_sole_close, Begin, Commit, object_of,
    response_of, run_commands, dispatch, Migrate, Initialize, MetaTable_Init_,
    SetVersionNumber, SetCompatibleVersionNumber, GetVersionNumber,
    DoesTableExist, seed_meta, close_connection; simpl.
  rewrite Htm, Htc, Hti; simpl.
  repeat split; reflexivity.
Qed.

End Versions.

Lemma Initialize_on_existing_database_witness :
  exists s',
    dispatch Scenario.no_faults (Scenario.batch 9 9 [Scenario.cmd INITIALIZE ""])
             (Scenario.cmd INITIALIZE "") New false
             (close_connection Scenario.in_use) =
    (RESPONSE_OK, s', set_result (value_ (INT_VALUE 3)) New, false,
     [MetaTable_DoesTableExist true; MetaTable_Init true;
      MetaTable_GetVersionNumber]) /\
    db_data s' = db_data Scenario.in_use /\
    initialized_ s' = true /\
    meta_table_db s' = true /\
    memory_pressure_listener_ s' = true /\
    db_is_open s' = false.
Proof.
  apply (Initialize_on_existing_database
           Scenario.no_faults (Scenario.batch 9 9 [Scenario.cmd INITIALIZE ""])
           (Scenario.cmd INITIALIZE "") New false
           (close_connection Scenario.in_use)
           (m := {| meta_version := 3; meta_compatible_version := 2 |}));
    reflexivity.
Defined.

Lemma Initialize_failure_ends_the_batch_witness :
  exists s' cs,
    RunTransaction
      {| open_ok := true; begin_ok := true; meta_init_ok := false;
         commit_ok := true |}
      (Scenario.batch 1 1 [Scenario.cmd VACUUM ""; Scenario.cmd INITIALIZE ""])
      (Some New) Scenario.brand_new =
    (s', Some (set_status INITIALIZATION_ERROR New), cs) /\
    db_data s' = db_data Scenario.brand_new /\
    initialized_ s' = false /\
    dispatched cs = [Scenario.cmd VACUUM ""] ++ [Scenario.cmd INITIALIZE ""] /\
    existsb is_Rollback cs = true.
Proof.
  eapply (Initialize_failure_ends_the_batch
            {| open_ok := true; begin_ok := true; meta_init_ok := false;
               commit_ok := true |}
            (Scenario.batch 1 1 [Scenario.cmd VACUUM "";
                                 Scenario.cmd INITIALIZE ""])
            [Scenario.cmd VACUUM ""] (Scenario.cmd INITIALIZE "") []
            New Scenario.brand_new);
    reflexivity.
Defined.

Lemma Migrate_then_reopen_reports_the_version_witness :
  response_of
    (RunTransaction
       Scenario.no_faults (Scenario.batch 1 1 [Scenario.cmd INITIALIZE ""])
       (Some New)
       (object_of
          (RunTransaction
             Scenario.no_faults (Scenario.batch 0 0 [Scenario.cmd CLOSE ""])
             (Some New)
             (object_of
                (RunTransaction
                   Scenario.no_faults
                   (Scenario.batch 5 3 [Scenario.cmd MIGRATE ""])
                   (Some New) Scenario.in_use))))) =
  Some (set_result (value_ (INT_VALUE 5)) New).
Proof.
  destruct (Migrate_then_reopen_reports_the_version
              Scenario.no_faults
              (Scenario.batch 5 3 [Scenario.cmd MIGRATE ""])
              (Scenario.batch 0 0 [Scenario.cmd CLOSE ""])
              (Scenario.batch 1 1 [Scenario.cmd INITIALIZE ""])
              (cm := Scenario.cmd MIGRATE "") (cc := Scenario.cmd CLOSE "")
              (ci := Scenario.cmd INITIALIZE "") New New New
              Scenario.in_use
              (m0 := {| meta_version := 3; meta_compatible_version := 2 |})
              eq_refl eq_refl eq_refl eq_refl eq_refl eq_refl eq_refl eq_refl
              eq_refl eq_refl eq_refl eq_refl eq_refl)
    as (_ & _ & _ & _ & H & _).
  exact H.
Defined.

(** ** Failing and empty batches *)

Section Failures.
Context {Tables : Type} {engine : Engine Tables}.
Implicit Types (s : LedgerDatabaseImpl (Tables := Tables)).

Lemma dispatch_same_versions F (t t' : DBTransaction) c r v s :
  version t = version t' ->
  compatible_version t = compatible_version t' ->
  dispatch F t c r v s = dispatch F t' c r v s.
Proof. intros Hv Hc; unfold dispatch; rewrite Hv, Hc; reflexivity. Qed.

Lemma run_commands_same_versions F (t t' : DBTransaction) k cmds r v s :
  version t = version t' ->
  compatible_version t = compatible_version t' ->
  run_commands F t k cmds r v s = run_commands F t' k cmds r v s.
Proof.
  intros Hv Hc; revert k r v s; induction cmds as [|c rest IH]; intros k r v s;
    simpl; [reflexivity|].
  rewrite (dispatch_same_versions F t t' c r v s Hv Hc).
  destruct (dispatch F t' c r v s) as [[[[st s2] r2] v2] cs2].
  rewrite IH; reflexivity.
Qed.

Lemma committer_after_same_versions F (t t' : DBTransaction) k cmds r v s :
  version t = version t' ->
  compatible_version t = compatible_version t' ->
  committer_after F t k cmds r v s = committer_after F t' k cmds r v s.
Proof.
  intros Hv Hc; revert k r v s; induction cmds as [|c rest IH]; intros k r v s;
    simpl; [reflexivity|].
  rewrite (dispatch_same_versions F t t' c r v s Hv Hc).
  destruct (dispatch F t' c r v s) as [[[[st s2] r2] v2] cs2].
  rewrite IH; reflexivity.
Qed.

(** X14.  A failed batch hands back the response as the last successful
    command left it, with only the status replaced by that of the failing
    command: the failing command writes no result, and a result written
    earlier in the batch stays in the response although its effect was rolled
    back. *)
Theorem failed_batch_keeps_the_last_result
        F (t : DBTransaction) pre c post r s s1 r1 v1 cs1 st s2 r2 v2 cs2 :
  commands t = pre ++ c :: post ->
  is_sole_close (commands t) = false ->
  connected F s = true ->
  begin_ok F = true ->
  loop_from_start F t pre r s = Finished s1 r1 v1 cs1 ->
  dispatch F t c r1 v1 s1 = (st, s2, r2, v2, cs2) ->
  st <> RESPONSE_OK ->
  response_of (RunTransaction F t (Some r) s) = Some (set_status st r1) /\
  result (set_status st r1) = result r1.
Proof.
  intros Hcmds Hs Hc Hb Hpre Hd Hst.
  destruct (RunTransaction_first_failure F t pre c post r s
              Hcmds Hs Hc Hb Hpre Hd Hst) as [Hrun _].
  destruct (dispatch_more _ _ _ _ _ _ Hd) as (_ & Hfail & _).
  destruct (Hfail Hst) as [-> _].
  rewrite Hrun; split; reflexivity.
Qed.

(** X15.  What follows the first failing command has no influence at all:
    two batches that carry the same versions and agree up to and including
    that command give the same object, the same response and the same calls,
    provided neither is a lone [CLOSE]. *)
Theorem commands_after_the_failure_do_not_matter
        F (t t' : DBTransaction) pre c post post' r s s1 r1 v1 cs1
        st s2 r2 v2 cs2 :
  commands t = pre ++ c :: post ->
  commands t' = pre ++ c :: post' ->
  version t = version t' ->
  compatible_version t = compatible_version t' ->
  is_sole_close (commands t) = false ->
  is_sole_close (commands t') = false ->
  connected F s = true ->
  begin_ok F = true ->
  loop_from_start F t pre r s = Finished s1 r1 v1 cs1 ->
  dispatch F t c r1 v1 s1 = (st, s2, r2, v2, cs2) ->
  st <> RESPONSE_OK ->
  RunTransaction F t (Some r) s = RunTransaction F t' (Some r) s.
Proof.
  intros Hcmds Hcmds' Hv Hcv Hs Hs' Hc Hb Hpre Hd Hst.
  destruct (RunTransaction_first_failure F t pre c post r s
              Hcmds Hs Hc Hb Hpre Hd Hst) as [Hrun _].
  assert (Hpre' : loop_from_start F t' pre r s = Finished s1 r1 v1 cs1).
  { rewrite <- Hpre; unfold loop_from_start.
    destruct (ensure_open F s) as [[? ?] ?].
    symmetry; apply run_commands_same_versions; assumption. }
  rewrite (dispatch_same_versions F t t' c r1 v1 s1 Hv Hcv) in Hd.
  destruct (RunTransaction_first_failure F t' pre c post' r s
              Hcmds' Hs' Hc Hb Hpre' Hd Hst) as [Hrun' _].
  rewrite Hrun, Hrun'; unfold rolled_back_at, committer_from_start.
  destruct (ensure_open F s) as [[? ?] ?].
  rewrite (committer_after_same_versions F t t' _ pre r false _ Hv Hcv).
  reflexivity.
Qed.

(** X16.  An empty batch is not an error: on a connection that is or gets
    open it begins a transaction and commits it.  When the commit succeeds
    the response comes back untouched; when it fails the status is
    [TRANSACTION_ERROR].  The content and [initialized_] are as before and
    the connection is open. *)
Theorem empty_batch_commits_nothing F (t : DBTransaction) r s :
  commands t = [] ->
  connected F s = true ->
  begin_ok F = true ->
  let out := RunTransaction F t (Some r) s in
  response_of out =
  Some (if commit_ok F then r else set_status TRANSACTION_ERROR r) /\
  calls_of out =
  open_calls s ++ [Transaction_Begin true; Transaction_Commit (commit_ok F)] /\
  db_data (object_of out) = db_data s /\
  initialized_ (object_of out) = initialized_ s /\
  db_is_open (object_of out) = true.
Proof.
  intros Hcmds Hc Hb out; unfold out; clear out.
  unfold RunTransaction, Begin, Commit, object_of, response_of, calls_of.
  rewrite (ensure_open_connected _ _ Hc), Hcmds, Hb; simpl.
  destruct (commit_ok F); simpl; repeat split; reflexivity.
Qed.

End Failures.

Lemma failed_batch_keeps_the_last_result_witness :
  response_of
    (RunTransaction Scenario.no_faults
                    (Scenario.batch 1 1 [Scenario.cmd INITIALIZE "";
                                         Scenario.cmd EXECUTE "fail"])
                    (Some New) Scenario.brand_new) =
  Some (set_status COMMAND_ERROR (set_result (value_ (INT_VALUE 0)) New)).
Proof.
  refine (proj1 (failed_batch_keeps_the_last_result
                   Scenario.no_faults
                   (Scenario.batch 1 1 [Scenario.cmd INITIALIZE "";
                                        Scenario.cmd EXECUTE "fail"])
                   [Scenario.cmd INITIALIZE ""] (Scenario.cmd EXECUTE "fail") []
                   New Scenario.brand_new
                   (st := COMMAND_ERROR)
                   eq_refl eq_refl eq_refl eq_refl eq_refl eq_refl _)).
  discriminate.
Defined.

Lemma commands_after_the_failure_do_not_matter_witness :
  RunTransaction Scenario.no_faults
                 (Scenario.batch 1 1 [Scenario.cmd EXECUTE "fail";
                                      Scenario.cmd EXECUTE "one"])
                 (Some New) Scenario.in_use =
  RunTransaction Scenario.no_faults
                 (Scenario.batch 1 1 [Scenario.cmd EXECUTE "fail";
                                      Scenario.cmd VACUUM "";
                                      Scenario.cmd CLOSE ""])
                 (Some New) Scenario.in_use.
Proof.
  refine (commands_after_the_failure_do_not_matter
            Scenario.no_faults
            (Scenario.batch 1 1 [Scenario.cmd EXECUTE "fail";
                                 Scenario.cmd EXECUTE "one"])
            (Scenario.batch 1 1 [Scenario.cmd EXECUTE "fail";
                                 Scenario.cmd VACUUM "";
                                 Scenario.cmd CLOSE ""])
            [] (Scenario.cmd EXECUTE "fail") [Scenario.cmd EXECUTE "one"]
            [Scenario.cmd VACUUM ""; Scenario.cmd CLOSE ""]
            New Scenario.in_use (st := COMMAND_ERROR)
            eq_refl eq_refl eq_refl eq_refl eq_refl eq_refl eq_refl eq_refl
            eq_refl eq_refl _).
  discriminate.
Defined.

Lemma empty_batch_commits_nothing_witness :
  response_of (RunTransaction Scenario.commit_fails (Scenario.batch 1 1 [])
                              (Some New) Scenario.brand_new) =
  Some (set_status TRANSACTION_ERROR New) /\
  calls_of (RunTransaction Scenario.commit_fails (Scenario.batch 1 1 [])
                           (Some New) Scenario.brand_new) =
  [Database_Open true; Transaction_Begin true; Transaction_Commit false] /\
  db_data (object_of (RunTransaction Scenario.commit_fails (Scenario.batch 1 1 [])
                                     (Some New) Scenario.brand_new)) =
  db_data Scenario.brand_new /\
  initialized_ (object_of (RunTransaction Scenario.commit_fails
                                          (Scenario.batch 1 1 [])
                                          (Some New) Scenario.brand_new)) =
  false /\
  db_is_open (object_of (RunTransaction Scenario.commit_fails
                                        (Scenario.batch 1 1 [])
                                        (Some New) Scenario.brand_new)) = true.
Proof.
  exact (empty_batch_commits_nothing Scenario.commit_fails (Scenario.batch 1 1 [])
                                     New Scenario.brand_new
                                     eq_refl eq_refl eq_refl).
Defined.

(** ** Order of dispatch *)

Section Order.
Context {Tables : Type} {engine : Engine Tables}.
Implicit Types (s : LedgerDatabaseImpl (Tables := Tables)).

(** X17.  Commands enter the dispatch in batch order, each at most once and
    without gaps: the commands dispatched by a call are always a prefix of
    the batch, and whenever a commit is attempted they are the whole
    batch. *)
Theorem dispatched_commands_are_a_prefix F (t : DBTransaction) p s :
  let cs := calls_of (RunTransaction F t p s) in
  (exists rest, commands t = dispatched cs ++ rest) /\
  (existsb is_any_Commit cs = true -> dispatched cs = commands t).
Proof.
  intros cs; unfold cs; clear cs.
  destruct p as [r|];
    [|split; [exists (commands t); reflexivity | discriminate]].
  destruct (RunTransaction_path F t r s) as
      [ Hc | Hc Hs | Hc Hs Hb | s' r' cs Hc Hs Hb Hl | s' r' v cs Hc Hs Hb Hl Hk
        | s' r' cs Hc Hs Hb Hl Hk | s' r' cs Hc Hs Hb Hl Hk ];
    unfold calls_of; cbn [snd].
  - split; [exists (commands t); reflexivity | discriminate].
  - rewrite existsb_app, open_calls_outside by reflexivity.
    rewrite dispatched_app, dispatched_open_calls.
    split; [exists (commands t); reflexivity | discriminate].
  - rewrite existsb_app, open_calls_outside by reflexivity.
    rewrite dispatched_app, dispatched_open_calls.
    split; [exists (commands t); reflexivity | discriminate].
  - destruct (loop_from_start_Returned _ _ _ _ _ Hc Hl)
      as (_ & _ & _ & _ & (body & Hbody & Hloop) & (pre & c & post & Hcmds & Hd)).
    rewrite dispatched_app, dispatched_open_calls; simpl; rewrite Hd.
    split; [exists post; rewrite Hcmds, <- app_assoc; reflexivity|].
    subst cs.
    rewrite wrapper_calls by first [assumption | reflexivity | outside].
    discriminate.
  - destruct (loop_from_start_Finished _ _ _ _ _ Hc Hl) as (_ & _ & _ & Hd & _).
    rewrite dispatched_app, dispatched_open_calls; simpl.
    rewrite dispatched_app, Hd; simpl; rewrite app_nil_r.
    split; [exists []; rewrite app_nil_r; reflexivity | reflexivity].
  - destruct (loop_from_start_Finished _ _ _ _ _ Hc Hl) as (_ & _ & _ & Hd & _).
    rewrite dispatched_app, dispatched_open_calls; simpl.
    rewrite dispatched_app, Hd.
    destruct (x_ok _); simpl; rewrite app_nil_r;
      (split; [exists []; rewrite app_nil_r; reflexivity | reflexivity]).
  - destruct (loop_from_start_Finished _ _ _ _ _ Hc Hl) as (_ & _ & _ & Hd & _).
    rewrite dispatched_app, dispatched_open_calls; simpl.
    rewrite dispatched_app, Hd; simpl; rewrite app_nil_r.
    split; [exists []; rewrite app_nil_r; reflexivity | reflexivity].
Qed.

End Order.

Lemma connection_is_opened_on_demand_witness :
  RunTransaction
    {| open_ok := false; begin_ok := true; meta_init_ok := true;
       commit_ok := true |}
    (Scenario.batch 1 1 [Scenario.cmd CLOSE ""]) (Some New) Scenario.brand_new =
  (Scenario.brand_new, Some (set_status INITIALIZATION_ERROR New),
   [Database_Open false]) /\
  db_is_open
    (object_of (RunTransaction Scenario.no_faults
                               (Scenario.batch 1 1 [Scenario.cmd READ "all"])
                               (Some New) Scenario.brand_new)) = true.
Proof.
  split.
  - exact (proj1 (proj2 (connection_is_opened_on_demand
                           {| open_ok := false; begin_ok := true;
                              meta_init_ok := true; commit_ok := true |}
                           (Scenario.batch 1 1 [Scenario.cmd CLOSE ""])
                           New Scenario.brand_new)) eq_refl).
  - exact (proj2 (proj2 (connection_is_opened_on_demand
                           Scenario.no_faults
                           (Scenario.batch 1 1 [Scenario.cmd READ "all"])
                           New Scenario.brand_new)) eq_refl).
Defined.

Lemma dispatched_commands_are_a_prefix_witness :
  dispatched
    (calls_of (RunTransaction Scenario.commit_fails
                              (Scenario.batch 1 1 [Scenario.cmd EXECUTE "one";
                                                   Scenario.cmd VACUUM ""])
                              (Some New) Scenario.in_use)) =
  [Scenario.cmd EXECUTE "one"; Scenario.cmd VACUUM ""].
Proof.
  exact (proj2 (dispatched_commands_are_a_prefix
                  Scenario.commit_fails
                  (Scenario.batch 1 1 [Scenario.cmd EXECUTE "one";
                                       Scenario.cmd VACUUM ""])
                  (Some New) Scenario.in_use) eq_refl).
Defined.
